(** * Reviews router of the e-commerce backend: a shallow embedding

    The development follows [app/routers/reviews.py] and
    [app/models/reviews.py].  The database session is an explicit state
    (the rows of the two tables the handlers touch, in insertion order),
    each handler is a computation in a small state-and-exception monad,
    and [HTTPException] is the only exception the handlers raise on
    purpose.  A raised exception leaves the database as it was at the
    point of the [raise]: what was committed before stays committed. *)

From Stdlib Require Import ZArith QArith Qabs List String Bool Lia Permutation.
Import ListNotations.
Open Scope Z_scope.

(** ** Data model *)

(** [app/models/reviews.py], class [Review].  [comment_date] is a
    timestamp, kept as an integer clock reading. *)
Module ReviewModel.
Record t : Type := mk {
  id : Z;
  user_id : Z;
  product_id : Z;
  comment : option string;
  comment_date : Z;
  grade : Z;
  is_active : bool
}.
End ReviewModel.

Module ProductModel.
(** Modelled from the spec: [app/models/products.py] is not part of the
    sources at hand.  The handlers read [id] and [is_active] and write
    [rating], which the spec describes as the product's stored rating,
    null when unknown. *)
Record t : Type := mk {
  id : Z;
  is_active : bool;
  rating : option Z
}.
End ProductModel.

Module UserModel.
(** Modelled from the spec: [app/models/users.py] is not part of the
    sources at hand.  The authenticated principal carries [id] and
    [role]. *)
Record t : Type := mk {
  id : Z;
  role : string
}.
End UserModel.

Module ReviewCreate.
(** Modelled from the spec: [app/schemas.py] is not part of the sources
    at hand.  The request body of a create is
    [{product_id, grade, comment?}]. *)
Record t : Type := mk {
  product_id : Z;
  grade : Z;
  comment : option string
}.
End ReviewCreate.

Record HTTPException : Type := mkHTTPException {
  status_code : Z;
  detail : string
}.

(** The database: both tables in insertion order, the sequence that
    feeds the primary key of [reviews], and the largest value of the
    integer type of the engine.  [app/database.py], which names the
    engine, is not part of the sources at hand, so the bound is a field
    of the database rather than a constant: the integer type holds
    [- integer_max - 1 .. integer_max]. *)
Record Db : Type := mkDb {
  reviews : list ReviewModel.t;
  products : list ProductModel.t;
  reviews_id_seq : Z;
  integer_max : Z
}.

(** ** The handler monad *)

Definition Handler (A : Type) : Type := Db -> (HTTPException + A) * Db.

Definition ret {A} (a : A) : Handler A := fun db => (inr a, db).

Definition bind {A B} (m : Handler A) (k : A -> Handler B) : Handler B :=
  fun db =>
    match m db with
    | (inl e, db') => (inl e, db')
    | (inr a, db') => k a db'
    end.

Definition raise {A} (e : HTTPException) : Handler A := fun db => (inl e, db).

Declare Scope handler_scope.
Delimit Scope handler_scope with handler.
Notation "x <- m ;; k" := (bind m (fun x => k))
  (at level 100, m at next level, right associativity) : handler_scope.
Notation "m ;; k" := (bind m (fun _ => k))
  (at level 100, right associativity) : handler_scope.
Notation "'raise_if' c 'then' e" := (if c then raise e else ret tt)
  (at level 99, c at level 98) : handler_scope.

(** ** Session operations *)

(** An exception that is no [HTTPException] (an error of the database
    driver or of the ORM) is answered by the framework with status 500. *)
Definition internal_error : HTTPException :=
  {| status_code := 500; detail := "Internal Server Error" |}.

Definition in_integer_range (db : Db) (x : Z) : bool :=
  (- integer_max db - 1 <=? x) && (x <=? integer_max db).

(** The driver binds the integer [x] of a request to a statement that
    compares it with a key column: it raises when [x] is outside the
    integer type.  The keys a table holds are values of that type; the
    rows of the model keep them as unbounded integers, so a key that is
    in the column counts as a value of the type. *)
Definition accepts (db : Db) (column : list Z) (x : Z) : bool :=
  in_integer_range db x || existsb (Z.eqb x) column.

(** [db.scalars(select(ReviewModel).where(...))].  [requested] are the
    integers of the where clause that the request supplies and the
    clause compares with [ReviewModel.id]; the other integers of a where
    clause are attributes of rows that were read before (the caller is a
    row of [users]).  The statement fails in the driver when one of the
    requested integers is not accepted, and nothing is read.  The rows
    come in table order; the statement has no ORDER BY, so the engine is
    free to give them in another one. *)
Definition scalars_reviews (requested : list Z)
  (whereclause : ReviewModel.t -> bool) : Handler (list ReviewModel.t) :=
  fun db =>
    if forallb (accepts db (map ReviewModel.id (reviews db))) requested
    then (inr (filter whereclause (reviews db)), db)
    else (inl internal_error, db).

(** [db.scalars(select(ProductModel).where(...))], with the requested
    integers that the clause compares with [ProductModel.id]. *)
Definition scalars_products (requested : list Z)
  (whereclause : ProductModel.t -> bool) : Handler (list ProductModel.t) :=
  fun db =>
    if forallb (accepts db (map ProductModel.id (products db))) requested
    then (inr (filter whereclause (products db)), db)
    else (inl internal_error, db).

(** [result.first()] *)
Definition first {A} (rows : list A) : option A := hd_error rows.

(** Truth value of [x] in [if x] / [if not x] for a row-or-[None]. *)
Definition truthy {A} (x : option A) : bool :=
  match x with Some _ => true | None => false end.

(** [ReviewModel( **review.model_dump(), user_id=...)] followed by
    [db.add] and [db.commit]: the row gets the next value of the
    sequence as [id], and the column defaults [comment_date = now] and
    [is_active = True].  [id] is the primary key: when a row has that
    value already the insert fails in the database, the transaction is
    rolled back and nothing is stored. *)
Definition new_review (review : ReviewCreate.t) (uid now rid : Z)
  : ReviewModel.t :=
  {| ReviewModel.id := rid;
     ReviewModel.user_id := uid;
     ReviewModel.product_id := ReviewCreate.product_id review;
     ReviewModel.comment := ReviewCreate.comment review;
     ReviewModel.comment_date := now;
     ReviewModel.grade := ReviewCreate.grade review;
     ReviewModel.is_active := true |}.

Definition add_commit (review : ReviewCreate.t) (uid now : Z)
  : Handler ReviewModel.t :=
  fun db =>
    let row := new_review review uid now (reviews_id_seq db) in
    if existsb (Z.eqb (reviews_id_seq db)) (map ReviewModel.id (reviews db))
    then (inl internal_error, db)
    else
      (inr row,
       {| reviews := reviews db ++ [row];
          products := products db;
          reviews_id_seq := reviews_id_seq db + 1;
          integer_max := integer_max db |}).

(** [db.refresh(obj)]: the attributes are read again from the row with
    the object's primary key.  A vanished row is an error of the ORM,
    which the framework answers with status 500. *)
Definition refresh (obj : ReviewModel.t) : Handler ReviewModel.t :=
  fun db =>
    match find (fun r => ReviewModel.id r =? ReviewModel.id obj) (reviews db) with
    | Some row => (inr row, db)
    | None => (inl {| status_code := 500; detail := "Internal Server Error" |}, db)
    end.

Definition sum_grades (rows : list ReviewModel.t) : Z :=
  fold_right (fun r acc => ReviewModel.grade r + acc) 0 rows.

(** [func.avg(ReviewModel.grade)] over the selected rows: SQL [AVG] is
    NULL on no rows, the exact quotient otherwise. *)
Definition avg_grade (rows : list ReviewModel.t) : option Q :=
  match rows with
  | [] => None
  | _ :: _ => Some (Qmake (sum_grades rows) (Pos.of_nat (List.length rows)))
  end.

(** [db.scalar(select(func.avg(ReviewModel.grade)).where(...))] *)
Definition scalar_avg_grade (whereclause : ReviewModel.t -> bool)
  : Handler (option Q) :=
  fun db => (inr (avg_grade (filter whereclause (reviews db))), db).

(** Python's [round(x)] with one argument: the nearest integer, a tie
    going to the even one. *)
Definition py_round (x : Q) : Z :=
  let n := Qnum x in
  let d := Zpos (Qden x) in
  let f := n / d in
  let r := n mod d in
  if 2 * r <? d then f
  else if d <? 2 * r then f + 1
  else if Z.even f then f else f + 1.

Definition set_rating (v : option Z) (p : ProductModel.t) : ProductModel.t :=
  {| ProductModel.id := ProductModel.id p;
     ProductModel.is_active := ProductModel.is_active p;
     ProductModel.rating := v |}.

Definition set_is_active (b : bool) (r : ReviewModel.t) : ReviewModel.t :=
  {| ReviewModel.id := ReviewModel.id r;
     ReviewModel.user_id := ReviewModel.user_id r;
     ReviewModel.product_id := ReviewModel.product_id r;
     ReviewModel.comment := ReviewModel.comment r;
     ReviewModel.comment_date := ReviewModel.comment_date r;
     ReviewModel.grade := ReviewModel.grade r;
     ReviewModel.is_active := b |}.

Definition update_rows {A} (whereclause : A -> bool) (values : A -> A)
  (rows : list A) : list A :=
  map (fun row => if whereclause row then values row else row) rows.

(** [db.execute(update(ProductModel).where(...).values(...))] and
    [db.commit] *)
Definition execute_update_products (whereclause : ProductModel.t -> bool)
  (values : ProductModel.t -> ProductModel.t) : Handler unit :=
  fun db =>
    (inr tt,
     {| reviews := reviews db;
        products := update_rows whereclause values (products db);
        reviews_id_seq := reviews_id_seq db;
        integer_max := integer_max db |}).

(** [db.execute(update(ReviewModel).where(...).values(...))] and
    [db.commit] *)
Definition execute_update_reviews (whereclause : ReviewModel.t -> bool)
  (values : ReviewModel.t -> ReviewModel.t) : Handler unit :=
  fun db =>
    (inr tt,
     {| reviews := update_rows whereclause values (reviews db);
        products := products db;
        reviews_id_seq := reviews_id_seq db;
        integer_max := integer_max db |}).

(** ** The three handlers *)

Open Scope string_scope.
Open Scope Z_scope.
Open Scope handler_scope.

(** [GET /reviews/] *)
Definition get_all_rewviews : Handler (list ReviewModel.t) :=
  result <- scalars_reviews [] (fun r => ReviewModel.is_active r) ;;
  ret result.

(** [POST /reviews/] *)
Definition create_review (review : ReviewCreate.t)
  (current_user : UserModel.t) (now : Z) : Handler ReviewModel.t :=
  product_result <- scalars_products [ReviewCreate.product_id review] (fun p =>
      (ProductModel.id p =? ReviewCreate.product_id review)
      && ProductModel.is_active p) ;;
  (raise_if negb (truthy (first product_result)) then
     {| status_code := 404; detail := "Product not found or inactive" |}) ;;
  review_result <- scalars_reviews [] (fun r =>
      (ReviewModel.user_id r =? UserModel.id current_user)
      && ReviewModel.is_active r) ;;
  (raise_if truthy (first review_result) then
     {| status_code := 409;
        detail := "You already have review for this product" |}) ;;
  (raise_if (ReviewCreate.grade review <? 1) || (ReviewCreate.grade review >? 5) then
     {| status_code := 422; detail := "Unprocessable Entity" |}) ;;
  db_review <- add_commit review (UserModel.id current_user) now ;;
  rating_avg <- scalar_avg_grade (fun r =>
      (ReviewModel.product_id r =? ReviewCreate.product_id review)
      && ReviewModel.is_active r) ;;
  let rating_value := option_map py_round rating_avg in
  execute_update_products
    (fun p => ProductModel.id p =? ReviewCreate.product_id review)
    (set_rating rating_value) ;;
  refresh db_review.

(** [DELETE /reviews/{review_id}] *)
Definition delete_review (review_id : Z) (current_user : UserModel.t)
  : Handler (list (string * string)) :=
  review_result <- scalars_reviews [review_id] (fun r =>
      (ReviewModel.id r =? review_id) && ReviewModel.is_active r) ;;
  match first review_result with
  | None => raise {| status_code := 404; detail := "Review not found or inactive" |}
  | Some review =>
    user_result <- scalars_reviews [review_id] (fun r =>
        ((ReviewModel.id r =? review_id) && ReviewModel.is_active r)
        && ((ReviewModel.user_id r =? UserModel.id current_user)
            || (UserModel.role current_user =? "admin")%string)) ;;
    (raise_if negb (truthy (first user_result)) then
       {| status_code := 403; detail := "You can only update your own reviews" |}) ;;
    execute_update_reviews (fun r => ReviewModel.id r =? review_id)
      (set_is_active false) ;;
    review <- refresh review ;;
    rating_avg <- scalar_avg_grade (fun r =>
        (ReviewModel.product_id r =? ReviewModel.product_id review)
        && ReviewModel.is_active r) ;;
    let rating_value := option_map py_round rating_avg in
    execute_update_products
      (fun p => ProductModel.id p =? ReviewModel.product_id review)
      (set_rating rating_value) ;;
    ret [("message", "Review deleted")]
  end.

Close Scope handler_scope.

(** ** Integrity constraints of the schema *)

Fixpoint distinct (ids : list Z) : bool :=
  match ids with
  | [] => true
  | x :: rest => negb (existsb (Z.eqb x) rest) && distinct rest
  end.

(** [id] is the primary key of [reviews], and the sequence is ahead of
    every key it has handed out. *)
Definition primary_key_ok (db : Db) : bool :=
  distinct (map ReviewModel.id (reviews db))
  && forallb (fun r => ReviewModel.id r <? reviews_id_seq db) (reviews db).

(** ** What the specification talks about *)

(** The grades of the active reviews of product [pid], in row order. *)
Definition active_grades (rows : list ReviewModel.t) (pid : Z) : list Z :=
  map ReviewModel.grade
    (filter (fun r => (ReviewModel.product_id r =? pid) && ReviewModel.is_active r)
       rows).

(** Arithmetic mean of a list of grades, as a rational. *)
Definition mean (gs : list Z) : Q :=
  Qdiv (inject_Z (fold_right Z.add 0 gs)) (inject_Z (Z.of_nat (List.length gs))).

(** [z] is [x] rounded to the nearest integer, a tie going to the even
    neighbour. *)
Definition rounds_half_even (x : Q) (z : Z) : Prop :=
  (Qabs (x - inject_Z z) <= 1 # 2)%Q
  /\ ((Qabs (x - inject_Z z) == 1 # 2)%Q -> Z.even z = true).

(** The rating the specification asks for on product [pid], given the
    rows of [reviews]: null without active reviews, the rounded mean of
    their grades otherwise. *)
Definition rating_as_specified (rows : list ReviewModel.t) (pid : Z)
  (v : option Z) : Prop :=
  match active_grades rows pid with
  | [] => v = None
  | gs => exists z, v = Some z /\ rounds_half_even (mean gs) z
  end.

(** The author [uid] has an active review for product [pid]. *)
Definition has_active_review (rows : list ReviewModel.t) (uid pid : Z) : bool :=
  existsb (fun r => (ReviewModel.user_id r =? uid)
                    && (ReviewModel.product_id r =? pid)
                    && ReviewModel.is_active r) rows.

(** A product [pid] exists with [is_active = true]. *)
Definition product_is_active (rows : list ProductModel.t) (pid : Z) : bool :=
  existsb (fun p => (ProductModel.id p =? pid) && ProductModel.is_active p) rows.

(** An active review with key [rid] exists. *)
Definition review_is_active (rows : list ReviewModel.t) (rid : Z) : bool :=
  existsb (fun r => (ReviewModel.id r =? rid) && ReviewModel.is_active r) rows.

Definition is_admin (u : UserModel.t) : bool :=
  (UserModel.role u =? "admin")%string.

(** The rows the duplicate check of [create_review] looks for: active
    reviews of the author [uid]. *)
Definition author_has_active_review (rows : list ReviewModel.t) (uid : Z) : bool :=
  existsb (fun r => (ReviewModel.user_id r =? uid) && ReviewModel.is_active r) rows.

Definition grade_out_of_range (g : Z) : bool := (g <? 1) || (g >? 5).

(** The driver accepts [pid] where a product id is expected. *)
Definition product_id_accepted (db : Db) (pid : Z) : bool :=
  accepts db (map ProductModel.id (products db)) pid.

(** The driver accepts [rid] where a review id is expected. *)
Definition review_id_accepted (db : Db) (rid : Z) : bool :=
  accepts db (map ReviewModel.id (reviews db)) rid.

(** The next value of the sequence is the key of a stored review. *)
Definition next_id_taken (db : Db) : bool :=
  existsb (Z.eqb (reviews_id_seq db)) (map ReviewModel.id (reviews db)).

(** The rows the ownership check of [delete_review] looks for. *)
Definition may_delete (rows : list ReviewModel.t) (rid : Z) (u : UserModel.t)
  : bool :=
  existsb (fun r =>
      ((ReviewModel.id r =? rid) && ReviewModel.is_active r)
      && ((ReviewModel.user_id r =? UserModel.id u) || is_admin u)) rows.

(** The rating written on product [pid], computed from [rows]. *)
Definition rating_value (rows : list ReviewModel.t) (pid : Z) : option Z :=
  option_map py_round
    (avg_grade (filter (fun r => (ReviewModel.product_id r =? pid)
                                 && ReviewModel.is_active r) rows)).

Definition write_rating (rows : list ReviewModel.t) (pid : Z)
  (ps : list ProductModel.t) : list ProductModel.t :=
  update_rows (fun p => ProductModel.id p =? pid)
    (set_rating (rating_value rows pid)) ps.

(** The database a create leaves behind once all its checks passed. *)
Definition created_db (review : ReviewCreate.t) (uid now : Z) (db : Db) : Db :=
  let rows := (reviews db ++ [new_review review uid now (reviews_id_seq db)])%list in
  {| reviews := rows;
     products := write_rating rows (ReviewCreate.product_id review) (products db);
     reviews_id_seq := reviews_id_seq db + 1;
     integer_max := integer_max db |}.

Definition deactivate (rid : Z) (rows : list ReviewModel.t) : list ReviewModel.t :=
  update_rows (fun r => ReviewModel.id r =? rid) (set_is_active false) rows.

(** The database a delete of [rid] leaves behind once both its checks
    passed, [pid] being the product of the deleted review. *)
Definition deleted_db (rid pid : Z) (db : Db) : Db :=
  let rows := deactivate rid (reviews db) in
  {| reviews := rows;
     products := write_rating rows pid (products db);
     reviews_id_seq := reviews_id_seq db;
     integer_max := integer_max db |}.

Definition product_not_found : HTTPException :=
  {| status_code := 404; detail := "Product not found or inactive" |}.
Definition already_reviewed : HTTPException :=
  {| status_code := 409; detail := "You already have review for this product" |}.
Definition unprocessable : HTTPException :=
  {| status_code := 422; detail := "Unprocessable Entity" |}.
Definition review_not_found : HTTPException :=
  {| status_code := 404; detail := "Review not found or inactive" |}.
Definition not_your_review : HTTPException :=
  {| status_code := 403; detail := "You can only update your own reviews" |}.
Definition review_deleted : list (string * string) :=
  [("message", "Review deleted")].

(** ** Further invariants of the tables *)

(** No two active reviews have the same author: what the duplicate
    check of [create_review], which looks at the author only, keeps. *)
Definition one_active_review_per_author (db : Db) : bool :=
  distinct (map ReviewModel.user_id
              (filter (fun r => ReviewModel.is_active r) (reviews db))).

(** Every stored grade is one the grade check lets through. *)
Definition grades_in_range (db : Db) : bool :=
  forallb (fun r => negb (grade_out_of_range (ReviewModel.grade r))) (reviews db).

(** Every stored rating is null or lies between 1 and 5. *)
Definition ratings_in_range (db : Db) : bool :=
  forallb (fun p => match ProductModel.rating p with
                    | None => true
                    | Some z => (1 <=? z) && (z <=? 5)
                    end) (products db).

(** The active reviews of author [uid] for product [pid]. *)
Definition active_reviews_of (rows : list ReviewModel.t) (uid pid : Z)
  : list ReviewModel.t :=
  filter (fun r => (ReviewModel.user_id r =? uid)
                   && (ReviewModel.product_id r =? pid)
                   && ReviewModel.is_active r) rows.

(** ** Sample data *)

Module Sample.

Definition buyer (uid : Z) : UserModel.t :=
  {| UserModel.id := uid; UserModel.role := "buyer" |}.

Definition admin (uid : Z) : UserModel.t :=
  {| UserModel.id := uid; UserModel.role := "admin" |}.

Definition product (pid : Z) (active : bool) : ProductModel.t :=
  {| ProductModel.id := pid; ProductModel.is_active := active;
     ProductModel.rating := None |}.

Definition request (pid g : Z) : ReviewCreate.t :=
  {| ReviewCreate.product_id := pid; ReviewCreate.grade := g;
     ReviewCreate.comment := None |}.

(** Three products, the third one inactive, and no review yet; the
    integer type has 64 bits. *)
Definition shop : Db :=
  {| reviews := [];
     products := [product 1 true; product 2 true; product 3 false];
     reviews_id_seq := 1;
     integer_max := 9223372036854775807 |}.

(** The database after [h] has run on [db], whatever [h] answered. *)
Definition after {A} (h : Handler A) (db : Db) : Db := snd (h db).

(** Buyer 7 graded product 1 with 4. *)
Definition shop1 : Db := after (create_review (request 1 4) (buyer 7) 100) shop.

(** Then buyer 8 graded product 1 with 5. *)
Definition shop2 : Db := after (create_review (request 1 5) (buyer 8) 101) shop1.

(** Then buyer 7 withdrew the first review. *)
Definition shop3 : Db := after (delete_review 1 (buyer 7)) shop2.

(** Then buyer 8 withdrew the second one: product 1 has no active review. *)
Definition shop4 : Db := after (delete_review 2 (buyer 8)) shop3.

End Sample.

(** ** Rows and queries *)

Section Queries.
Context {A : Type}.
Variable f : A -> bool.

Lemma truthy_first_filter (l : list A) :
  truthy (first (filter f l)) = existsb f l.
Proof.
  induction l as [|a l IH]; simpl; [reflexivity|].
  destruct (f a); simpl; [reflexivity | exact IH].
Qed.

Lemma first_filter_in (l : list A) (a : A) :
  first (filter f l) = Some a -> In a l /\ f a = true.
Proof.
  intros H. apply filter_In. destruct (filter f l) as [|b t]; [discriminate|].
  simpl in H. injection H as ->. now left.
Qed.

Lemma first_filter_none (l : list A) :
  first (filter f l) = None -> forall a, In a l -> f a = false.
Proof.
  intros H a Ha. destruct (f a) eqn:E; [|reflexivity].
  assert (In a (filter f l)) as Hin by (apply filter_In; auto).
  destruct (filter f l); [contradiction | discriminate].
Qed.

Lemma find_last (l : list A) (a : A) :
  (forall x, In x l -> f x = false) -> f a = true ->
  find f (l ++ [a]) = Some a.
Proof.
  intros Hl Ha. induction l as [|b l IH]; simpl.
  - now rewrite Ha.
  - rewrite (Hl b (or_introl eq_refl)). apply IH.
    intros x Hx. apply Hl. now right.
Qed.

Lemma find_app_some (l : list A) (a : A) :
  f a = true -> exists b, find f (l ++ [a]) = Some b.
Proof.
  intros Ha. induction l as [|b l IH]; simpl.
  - rewrite Ha. now exists a.
  - destruct (f b); [now exists b | exact IH].
Qed.
End Queries.

Lemma update_rows_length {A} (w : A -> bool) (v : A -> A) (l : list A) :
  List.length (update_rows w v l) = List.length l.
Proof. apply length_map. Qed.

Lemma update_rows_in {A} (w : A -> bool) (v : A -> A) (l : list A) (b : A) :
  In b (update_rows w v l) <->
  exists a, In a l /\ b = (if w a then v a else a).
Proof.
  unfold update_rows. rewrite in_map_iff. split.
  - intros (a & E & Ha). exists a. auto.
  - intros (a & Ha & E). exists a. auto.
Qed.

Lemma distinct_spec (ids : list Z) : distinct ids = true <-> NoDup ids.
Proof.
  induction ids as [|x ids IH]; simpl.
  - split; [constructor | reflexivity].
  - rewrite andb_true_iff, negb_true_iff, IH. split.
    + intros [Hx Hd]. constructor; [|exact Hd].
      intros Hin. assert (existsb (Z.eqb x) ids = true) as E.
      { apply existsb_exists. exists x. split; [exact Hin | apply Z.eqb_refl]. }
      congruence.
    + intros H. inversion H as [|y l Hx Hd]; subst. split; [|exact Hd].
      destruct (existsb (Z.eqb x) ids) eqn:E; [|reflexivity].
      apply existsb_exists in E as (y & Hy & Hxy).
      apply Z.eqb_eq in Hxy. subst y. contradiction.
Qed.

(** With distinct keys, a row is the first and only one with its key. *)
Lemma find_by_key (rows : list ReviewModel.t) (r : ReviewModel.t) :
  distinct (map ReviewModel.id rows) = true -> In r rows ->
  find (fun x => ReviewModel.id x =? ReviewModel.id r) rows = Some r.
Proof.
  induction rows as [|a rows IH]; simpl; [contradiction|].
  rewrite andb_true_iff, negb_true_iff. intros [Ha Hd] [->|Hin].
  - now rewrite Z.eqb_refl.
  - destruct (Z.eqb_spec (ReviewModel.id a) (ReviewModel.id r)) as [E|_]; [|auto].
    exfalso. assert (existsb (Z.eqb (ReviewModel.id a)) (map ReviewModel.id rows) = true) as X.
    { apply existsb_exists. exists (ReviewModel.id r). split.
      - now apply in_map.
      - now apply Z.eqb_eq. }
    congruence.
Qed.

Lemma same_key_same_row (rows : list ReviewModel.t) (a b : ReviewModel.t) :
  distinct (map ReviewModel.id rows) = true -> In a rows -> In b rows ->
  ReviewModel.id a = ReviewModel.id b -> a = b.
Proof.
  intros Hd Ha Hb E.
  pose proof (find_by_key rows a Hd Ha) as Fa.
  pose proof (find_by_key rows b Hd Hb) as Fb.
  rewrite E in Fa. congruence.
Qed.

(** ** Rounding *)

(** Distance of [n/d] to the integer [z], with the denominator cleared. *)
Lemma within_half (n : Z) (d : positive) (z : Z) :
  (Qabs ((n # d) - inject_Z z) <= 1 # 2)%Q
  <-> 2 * Z.abs (n - z * Zpos d) <= Zpos d.
Proof.
  unfold Qle, Qabs, Qminus, Qplus, Qopp, inject_Z. cbn [Qnum Qden].
  rewrite Pos.mul_1_r. lia.
Qed.

Lemma at_half (n : Z) (d : positive) (z : Z) :
  (Qabs ((n # d) - inject_Z z) == 1 # 2)%Q
  <-> 2 * Z.abs (n - z * Zpos d) = Zpos d.
Proof.
  unfold Qeq, Qabs, Qminus, Qplus, Qopp, inject_Z. cbn [Qnum Qden].
  rewrite Pos.mul_1_r. lia.
Qed.

Lemma py_round_rounds_half_even (x : Q) : rounds_half_even x (py_round x).
Proof.
  destruct x as [n d]. unfold rounds_half_even, py_round. cbn [Qnum Qden].
  pose proof (Z.div_mod n (Zpos d) ltac:(lia)) as Hdm.
  pose proof (Z.mod_pos_bound n (Zpos d) ltac:(lia)) as Hr.
  set (f := n / Zpos d) in *. set (r := n mod Zpos d) in *.
  rewrite within_half, at_half.
  destruct (Z.ltb_spec (2 * r) (Zpos d)); [split; nia|].
  destruct (Z.ltb_spec (Zpos d) (2 * r)); [split; nia|].
  destruct (Z.even f) eqn:Ev; [split; [nia | auto]|].
  split; [nia|]. intros _. rewrite Z.even_add, Ev. reflexivity.
Qed.

(** The rounding rule fixes the result: no other integer qualifies. *)
Lemma rounds_half_even_unique (x : Q) (z1 z2 : Z) :
  rounds_half_even x z1 -> rounds_half_even x z2 -> z1 = z2.
Proof.
  destruct x as [n d]. unfold rounds_half_even.
  rewrite !within_half, !at_half. intros [L1 E1] [L2 E2].
  assert (z1 = z2 \/ z1 = z2 + 1 \/ z2 = z1 + 1) as [H|[H|H]] by nia;
    [exact H | exfalso | exfalso].
  - assert (2 * Z.abs (n - z1 * Zpos d) = Zpos d) as T1 by nia.
    assert (2 * Z.abs (n - z2 * Zpos d) = Zpos d) as T2 by nia.
    specialize (E1 T1). specialize (E2 T2). subst z1.
    rewrite Z.even_add, E2 in E1. discriminate.
  - assert (2 * Z.abs (n - z1 * Zpos d) = Zpos d) as T1 by nia.
    assert (2 * Z.abs (n - z2 * Zpos d) = Zpos d) as T2 by nia.
    specialize (E1 T1). specialize (E2 T2). subst z2.
    rewrite Z.even_add, E1 in E2. discriminate.
Qed.

Lemma sum_grades_map (rows : list ReviewModel.t) :
  sum_grades rows = fold_right Z.add 0 (map ReviewModel.grade rows).
Proof.
  induction rows as [|r rows IH]; [reflexivity|].
  cbn [map fold_right]. rewrite <- IH. reflexivity.
Qed.

(** On at least one row, SQL's average is the mean of the grades. *)
Lemma avg_grade_mean (rows : list ReviewModel.t) (x : Q) :
  avg_grade rows = Some x -> (x == mean (map ReviewModel.grade rows))%Q.
Proof.
  intros H.
  assert (rows <> []) as Hne by (intros ->; discriminate).
  assert (x = sum_grades rows # Pos.of_nat (List.length rows)) as ->.
  { destruct rows; [discriminate|]. injection H as <-. reflexivity. }
  unfold mean. rewrite Qmake_Qdiv, length_map, <- sum_grades_map.
  replace (Zpos (Pos.of_nat (List.length rows)))
    with (Z.of_nat (List.length rows)); [reflexivity|].
  destruct rows; [congruence|]. cbn [List.length]. lia.
Qed.

Lemma rounds_half_even_compat (x y : Q) (z : Z) :
  (x == y)%Q -> rounds_half_even x z -> rounds_half_even y z.
Proof. unfold rounds_half_even. intros E. now rewrite E. Qed.

(** The value written to [rating] is the one the specification asks
    for, whenever it is computed from the rows it is compared with. *)
Lemma rating_value_as_specified (rows : list ReviewModel.t) (pid : Z) :
  rating_as_specified rows pid
    (option_map py_round
       (avg_grade (filter (fun r => (ReviewModel.product_id r =? pid)
                                    && ReviewModel.is_active r) rows))).
Proof.
  unfold rating_as_specified, active_grades.
  set (sel := filter _ rows).
  destruct (avg_grade sel) as [x|] eqn:E.
  - pose proof (avg_grade_mean sel x E) as Hm.
    destruct sel as [|r sel']; [discriminate|].
    cbn [map option_map]. exists (py_round x). split; [reflexivity|].
    apply (rounds_half_even_compat x); [exact Hm|].
    apply py_round_rounds_half_even.
  - destruct sel; [reflexivity | discriminate].
Qed.

(** ** The handlers, check by check *)

Lemma forallb_one {A} (f : A -> bool) (a : A) : forallb f [a] = f a.
Proof. cbn. apply andb_true_r. Qed.


Lemma stored_key_accepted (db : Db) (column : list Z) (x : Z) :
  In x column -> accepts db column x = true.
Proof.
  intros H. unfold accepts. apply orb_true_iff. right.
  apply existsb_exists. exists x. split; [exact H | apply Z.eqb_refl].
Qed.

Lemma active_product_accepted (db : Db) (pid : Z) :
  product_is_active (products db) pid = true -> product_id_accepted db pid = true.
Proof.
  intros H. apply existsb_exists in H as (p & Hp & Hsel).
  apply andb_true_iff in Hsel as [Hid _]. apply Z.eqb_eq in Hid. subst pid.
  apply stored_key_accepted. now apply in_map.
Qed.

Lemma stored_review_accepted (db : Db) (r : ReviewModel.t) :
  In r (reviews db) -> review_id_accepted db (ReviewModel.id r) = true.
Proof. intros H. apply stored_key_accepted. now apply in_map. Qed.

Lemma active_review_accepted (db : Db) (rid : Z) :
  review_is_active (reviews db) rid = true -> review_id_accepted db rid = true.
Proof.
  intros H. apply existsb_exists in H as (r & Hr & Hsel).
  apply andb_true_iff in Hsel as [Hid _]. apply Z.eqb_eq in Hid. subst rid.
  now apply stored_review_accepted.
Qed.

Lemma next_id_free (db : Db) (r : ReviewModel.t) :
  next_id_taken db = false -> In r (reviews db) ->
  (ReviewModel.id r =? reviews_id_seq db) = false.
Proof.
  intros Hfree Hr. apply Z.eqb_neq. intros E.
  assert (next_id_taken db = true) as X.
  { apply existsb_exists. exists (ReviewModel.id r). split; [now apply in_map|].
    apply Z.eqb_eq. congruence. }
  congruence.
Qed.

Lemma primary_key_ok_next_id_free (db : Db) :
  primary_key_ok db = true -> next_id_taken db = false.
Proof.
  intros Hpk. apply andb_true_iff in Hpk as [_ Hlt].
  rewrite forallb_forall in Hlt.
  destruct (next_id_taken db) eqn:E; [|reflexivity].
  apply existsb_exists in E as (x & Hx & Ex). apply Z.eqb_eq in Ex.
  apply in_map_iff in Hx as (r & Hr & Hin). specialize (Hlt r Hin). lia.
Qed.

Lemma create_review_run (review : ReviewCreate.t) (u : UserModel.t) (now : Z)
  (db : Db) :
  create_review review u now db =
  if negb (product_id_accepted db (ReviewCreate.product_id review))
  then (inl internal_error, db)
  else if negb (product_is_active (products db) (ReviewCreate.product_id review))
  then (inl product_not_found, db)
  else if author_has_active_review (reviews db) (UserModel.id u)
  then (inl already_reviewed, db)
  else if grade_out_of_range (ReviewCreate.grade review)
  then (inl unprocessable, db)
  else if next_id_taken db
  then (inl internal_error, db)
  else (inr (new_review review (UserModel.id u) now (reviews_id_seq db)),
        created_db review (UserModel.id u) now db).
Proof.
  unfold create_review, bind, scalars_products.
  rewrite forallb_one.
  fold (product_id_accepted db (ReviewCreate.product_id review)).
  destruct (product_id_accepted _ _); cbn [negb]; [|reflexivity].
  rewrite truthy_first_filter.
  fold (product_is_active (products db) (ReviewCreate.product_id review)).
  destruct (product_is_active _ _); cbn [negb]; [|reflexivity].
  unfold ret at 1, scalars_reviews. cbn [forallb].
  rewrite truthy_first_filter.
  fold (author_has_active_review (reviews db) (UserModel.id u)).
  destruct (author_has_active_review _ _); [reflexivity|].
  unfold ret at 1. fold (grade_out_of_range (ReviewCreate.grade review)).
  destruct (grade_out_of_range _); [reflexivity|].
  unfold ret at 1, add_commit. fold (next_id_taken db).
  destruct (next_id_taken db) eqn:Hfree; [reflexivity|].
  unfold scalar_avg_grade, execute_update_products, refresh.
  cbn [reviews products reviews_id_seq integer_max new_review ReviewModel.id].
  rewrite find_last.
  - reflexivity.
  - intros x Hx. now apply next_id_free.
  - apply Z.eqb_refl.
Qed.

Lemma find_deactivated (rid : Z) (rows : list ReviewModel.t) :
  find (fun r => ReviewModel.id r =? rid) (deactivate rid rows)
  = option_map (set_is_active false)
      (find (fun r => ReviewModel.id r =? rid) rows).
Proof.
  induction rows as [|a rows IH]; [reflexivity|].
  cbn [deactivate update_rows map find].
  destruct (Z.eqb_spec (ReviewModel.id a) rid) as [E|E].
  - cbn [set_is_active ReviewModel.id]. rewrite E, Z.eqb_refl. reflexivity.
  - destruct (Z.eqb_spec (ReviewModel.id a) rid); [contradiction | exact IH].
Qed.

Lemma delete_review_run (rid : Z) (u : UserModel.t) (db : Db) :
  delete_review rid u db =
  if negb (review_id_accepted db rid)
  then (inl internal_error, db)
  else if negb (review_is_active (reviews db) rid)
  then (inl review_not_found, db)
  else if negb (may_delete (reviews db) rid u)
  then (inl not_your_review, db)
  else
    match find (fun r => ReviewModel.id r =? rid) (reviews db) with
    | Some r => (inr review_deleted, deleted_db rid (ReviewModel.product_id r) db)
    | None => (inl review_not_found, db)
    end.
Proof.
  unfold delete_review, bind, scalars_reviews.
  rewrite forallb_one. fold (review_id_accepted db rid).
  destruct (review_id_accepted db rid) eqn:Hacc; cbn [negb]; [|reflexivity].
  unfold review_is_active. rewrite <- truthy_first_filter.
  destruct (first (filter _ (reviews db))) as [review|] eqn:F; [|reflexivity].
  cbn [truthy negb]. rewrite forallb_one.
  fold (review_id_accepted db rid). rewrite Hacc, truthy_first_filter.
  fold (is_admin u). fold (may_delete (reviews db) rid u).
  destruct (may_delete _ _ _); [|reflexivity].
  apply first_filter_in in F as [Hin Hsel].
  apply andb_true_iff in Hsel as [Hid _]. apply Z.eqb_eq in Hid.
  cbn [negb]. unfold ret at 1, execute_update_reviews, refresh.
  cbv beta iota. rewrite Hid. fold (deactivate rid (reviews db)).
  cbn [reviews]. rewrite find_deactivated.
  destruct (find _ (reviews db)) as [r|] eqn:Ff.
  - reflexivity.
  - exfalso. apply (find_none _ _ Ff) in Hin. rewrite Hid, Z.eqb_refl in Hin.
    discriminate.
Qed.


(** The row a create inserts is there to be read back. *)
Lemma created_row_found (review : ReviewCreate.t) (uid now : Z) (db : Db) :
  exists row,
    find (fun r => ReviewModel.id r =? reviews_id_seq db)
         (reviews (created_db review uid now db)) = Some row.
Proof.
  cbn [created_db reviews]. apply find_app_some.
  cbn [new_review ReviewModel.id]. apply Z.eqb_refl.
Qed.

(** Under the key constraint, it is the inserted row that is read back. *)
Lemma created_row_is_new (review : ReviewCreate.t) (uid now : Z) (db : Db) :
  primary_key_ok db = true ->
  find (fun r => ReviewModel.id r =? reviews_id_seq db)
       (reviews (created_db review uid now db))
  = Some (new_review review uid now (reviews_id_seq db)).
Proof.
  intros Hpk. apply andb_true_iff in Hpk as [_ Hlt].
  cbn [created_db reviews]. apply find_last.
  - intros x Hx. rewrite forallb_forall in Hlt. specialize (Hlt x Hx). lia.
  - cbn [new_review ReviewModel.id]. apply Z.eqb_refl.
Qed.

Lemma create_review_succeeds (review : ReviewCreate.t) (u : UserModel.t)
  (now : Z) (db : Db) :
  product_is_active (products db) (ReviewCreate.product_id review) = true ->
  author_has_active_review (reviews db) (UserModel.id u) = false ->
  grade_out_of_range (ReviewCreate.grade review) = false ->
  next_id_taken db = false ->
  exists row,
    create_review review u now db
    = (inr row, created_db review (UserModel.id u) now db).
Proof.
  intros Hp Ha Hg Hfree.
  rewrite create_review_run, (active_product_accepted _ _ Hp), Hp, Ha, Hg, Hfree.
  cbn [negb]. eexists. reflexivity.
Qed.

(** A create that answers with a review went through all three checks. *)
Lemma create_review_success_inv (review : ReviewCreate.t) (u : UserModel.t)
  (now : Z) (db db' : Db) (row : ReviewModel.t) :
  create_review review u now db = (inr row, db') ->
  product_is_active (products db) (ReviewCreate.product_id review) = true
  /\ author_has_active_review (reviews db) (UserModel.id u) = false
  /\ grade_out_of_range (ReviewCreate.grade review) = false
  /\ db' = created_db review (UserModel.id u) now db
  /\ find (fun r => ReviewModel.id r =? reviews_id_seq db) (reviews db') = Some row.
Proof.
  rewrite create_review_run.
  destruct (product_id_accepted _ _); cbn [negb]; [|discriminate].
  destruct (product_is_active _ _); cbn [negb]; [|discriminate].
  destruct (author_has_active_review _ _); [discriminate|].
  destruct (grade_out_of_range _); [discriminate|].
  destruct (next_id_taken db) eqn:Hfree; [discriminate|].
  intros H. injection H as <- <-. repeat split.
  cbn [created_db reviews]. apply find_last.
  - intros x Hx. now apply next_id_free.
  - cbn [new_review ReviewModel.id]. apply Z.eqb_refl.
Qed.

(** The review a create answers with is the row it inserted, under a
    key no stored row had. *)
Lemma create_review_success_row (review : ReviewCreate.t) (u : UserModel.t)
  (now : Z) (db db' : Db) (row : ReviewModel.t) :
  create_review review u now db = (inr row, db') ->
  row = new_review review (UserModel.id u) now (reviews_id_seq db)
  /\ next_id_taken db = false.
Proof.
  rewrite create_review_run.
  destruct (negb _); [discriminate|]. destruct (negb _); [discriminate|].
  destruct (author_has_active_review _ _); [discriminate|].
  destruct (grade_out_of_range _); [discriminate|].
  destruct (next_id_taken db); [discriminate|].
  intros H. injection H as <- _. auto.
Qed.

Lemma review_is_active_found (rows : list ReviewModel.t) (rid : Z) :
  review_is_active rows rid = true ->
  exists r, find (fun r => ReviewModel.id r =? rid) rows = Some r.
Proof.
  unfold review_is_active. rewrite existsb_exists. intros (r & Hin & H).
  apply andb_true_iff in H as [Hid _].
  destruct (find _ rows) as [r'|] eqn:F; [now exists r'|].
  apply (find_none _ _ F) in Hin. cbv beta in Hin. congruence.
Qed.

(** A delete that answers with the confirmation went through both checks. *)
Lemma delete_review_success_inv (rid : Z) (u : UserModel.t) (db db' : Db)
  (m : list (string * string)) :
  delete_review rid u db = (inr m, db') ->
  review_is_active (reviews db) rid = true
  /\ may_delete (reviews db) rid u = true
  /\ m = review_deleted
  /\ exists r, find (fun r => ReviewModel.id r =? rid) (reviews db) = Some r
               /\ db' = deleted_db rid (ReviewModel.product_id r) db.
Proof.
  rewrite delete_review_run.
  destruct (review_id_accepted _ _); cbn [negb]; [|discriminate].
  destruct (review_is_active _ _); cbn [negb]; [|discriminate].
  destruct (may_delete _ _ _); cbn [negb]; [|discriminate].
  destruct (find _ _) as [r|]; [|discriminate].
  intros H. injection H as <- <-. repeat split. now exists r.
Qed.

(** ** The schema constraint is kept by both writing handlers *)

Lemma deactivate_ids (rid : Z) (rows : list ReviewModel.t) :
  map ReviewModel.id (deactivate rid rows) = map ReviewModel.id rows.
Proof.
  unfold deactivate, update_rows. rewrite map_map. apply map_ext.
  intros r. now destruct (ReviewModel.id r =? rid).
Qed.

Lemma distinct_snoc (ids : list Z) (x : Z) :
  distinct ids = true -> ~ In x ids -> distinct (ids ++ [x]) = true.
Proof.
  rewrite !distinct_spec. intros Hd Hx.
  apply NoDup_rev in Hd. rewrite <- (rev_involutive (ids ++ [x])).
  apply NoDup_rev. rewrite rev_app_distr. cbn [rev app]. constructor.
  - now rewrite <- in_rev.
  - exact Hd.
Qed.

Lemma created_db_primary_key_ok (review : ReviewCreate.t) (uid now : Z) (db : Db) :
  primary_key_ok db = true ->
  primary_key_ok (created_db review uid now db) = true.
Proof.
  unfold primary_key_ok. rewrite !andb_true_iff. intros [Hd Hlt].
  cbn [created_db reviews reviews_id_seq].
  rewrite forallb_forall in Hlt. split.
  - rewrite map_app. cbn [map new_review ReviewModel.id].
    apply distinct_snoc; [exact Hd|].
    rewrite in_map_iff. intros (r & E & Hin). specialize (Hlt r Hin). lia.
  - rewrite forallb_forall. intros r Hin. apply in_app_or in Hin as [Hin|[<-|[]]].
    + specialize (Hlt r Hin). lia.
    + cbn [new_review ReviewModel.id]. lia.
Qed.

Lemma deleted_db_primary_key_ok (rid pid : Z) (db : Db) :
  primary_key_ok db = true -> primary_key_ok (deleted_db rid pid db) = true.
Proof.
  unfold primary_key_ok. rewrite !andb_true_iff. intros [Hd Hlt].
  cbn [deleted_db reviews reviews_id_seq]. rewrite deactivate_ids.
  split; [exact Hd|]. rewrite forallb_forall in *. intros r Hin.
  apply update_rows_in in Hin as (a & Ha & ->). specialize (Hlt a Ha).
  now destruct (ReviewModel.id a =? rid).
Qed.

Lemma create_review_primary_key_ok (review : ReviewCreate.t) (u : UserModel.t)
  (now : Z) (db : Db) :
  primary_key_ok db = true ->
  primary_key_ok (snd (create_review review u now db)) = true.
Proof.
  intros Hpk. rewrite create_review_run.
  destruct (negb _); [exact Hpk|]. destruct (negb _); [exact Hpk|].
  destruct (author_has_active_review _ _); [exact Hpk|].
  destruct (grade_out_of_range _); [exact Hpk|].
  destruct (next_id_taken db); [exact Hpk|].
  now apply created_db_primary_key_ok.
Qed.

Lemma delete_review_primary_key_ok (rid : Z) (u : UserModel.t) (db : Db) :
  primary_key_ok db = true ->
  primary_key_ok (snd (delete_review rid u db)) = true.
Proof.
  intros Hpk. rewrite delete_review_run.
  destruct (negb _); [exact Hpk|]. destruct (negb _); [exact Hpk|].
  destruct (negb _); [exact Hpk|].
  destruct (find _ _); [now apply deleted_db_primary_key_ok | exact Hpk].
Qed.

(** ** Listing *)

(** C8: on every database, the listing answers with exactly the rows of
    [reviews] whose [is_active] is true (every active row is in the
    answer and no inactive row is), it does not fail, and it leaves the
    database as it found it. *)
Theorem list_returns_exactly_active (db : Db) :
  exists rows,
    get_all_rewviews db = (inr rows, db)
    /\ (forall r, In r rows <-> In r (reviews db) /\ ReviewModel.is_active r = true)
    /\ (forall r, In r rows -> ReviewModel.is_active r <> false).
Proof.
  exists (filter (fun r => ReviewModel.is_active r) (reviews db)).
  split; [reflexivity|]. split.
  - intros r. apply filter_In.
  - intros r Hin. apply filter_In in Hin as [_ ->]. discriminate.
Qed.

(** ** Create: the rejections *)








(** What the grade check does once the two checks before it passed,
    the key constraint holding. *)
Lemma create_grade_checked (review : ReviewCreate.t) (u : UserModel.t)
  (now : Z) (db : Db) :
  primary_key_ok db = true ->
  product_is_active (products db) (ReviewCreate.product_id review) = true ->
  author_has_active_review (reviews db) (UserModel.id u) = false ->
  (ReviewCreate.grade review < 1 \/ 5 < ReviewCreate.grade review ->
   create_review review u now db = (inl unprocessable, db))
  /\ (1 <= ReviewCreate.grade review <= 5 ->
      exists row, create_review review u now db
                  = (inr row, created_db review (UserModel.id u) now db)).
Proof.
  intros Hpk Hp Ha. split; intros Hg.
  - rewrite create_review_run, (active_product_accepted _ _ Hp), Hp, Ha.
    replace (grade_out_of_range _) with true; [reflexivity|].
    unfold grade_out_of_range. lia.
  - apply create_review_succeeds; auto.
    + unfold grade_out_of_range. lia.
    + now apply primary_key_ok_next_id_free.
Qed.

(** Every review a create persists is active with a grade from 1 to 5,
    and under the key constraint the answer is that very row. *)
Lemma created_review_valid (review : ReviewCreate.t) (u : UserModel.t)
  (now : Z) (db db' : Db) (row : ReviewModel.t) :
  create_review review u now db = (inr row, db') ->
  let new := new_review review (UserModel.id u) now (reviews_id_seq db) in
  reviews db' = (reviews db ++ [new])%list
  /\ 1 <= ReviewModel.grade new <= 5
  /\ ReviewModel.is_active new = true
  /\ (primary_key_ok db = true -> row = new).
Proof.
  intros H. apply create_review_success_inv in H as (_ & _ & Hg & -> & F).
  cbv zeta. split; [reflexivity|]. split.
  - cbn [new_review ReviewModel.grade]. unfold grade_out_of_range in Hg. lia.
  - split; [reflexivity|]. intros Hpk.
    rewrite (created_row_is_new _ _ _ _ Hpk) in F. congruence.
Qed.

(** C1: the duplicate check of a create selects the active reviews of
    the author without looking at their product.  Buyer 7 has one active
    review, for product 1, and none for the active product 2; a create
    for product 2 with grade 3 is answered 409 and nothing is stored. *)
Theorem create_conflict_from_other_product :
  product_is_active (products Sample.shop1) 2 = true
  /\ has_active_review (reviews Sample.shop1) 7 2 = false
  /\ grade_out_of_range 3 = false
  /\ create_review (Sample.request 2 3) (Sample.buyer 7) 102 Sample.shop1
     = (inl already_reviewed, Sample.shop1).
Proof. repeat split. Qed.

(** C3: with an active product and no active review of it by the
    author, the grade check is still not reached when the author has an
    active review of another product: grades 1 and 5 are answered 409
    instead of being accepted, grades 0 and 6 are answered 409 instead
    of 422. *)
Theorem create_grade_check_not_reached :
  product_is_active (products Sample.shop1) 2 = true
  /\ has_active_review (reviews Sample.shop1) 7 2 = false
  /\ Forall (fun g =>
       create_review (Sample.request 2 g) (Sample.buyer 7) 102 Sample.shop1
       = (inl already_reviewed, Sample.shop1)) [0; 1; 5; 6].
Proof. repeat split. repeat constructor. Qed.

(** ** Failures write nothing *)

(** C10: a create or a delete that fails leaves the database as it
    was: no review row added or changed, no rating written.  It fails
    with one of the business errors (404, 409, 422 for a create; 404,
    403 for a delete), unless the database itself refused a statement
    (status 500): the driver the requested id, or the reviews table the
    key of the new row. *)
Theorem failed_request_writes_nothing :
  (forall review u now db e db',
      create_review review u now db = (inl e, db') ->
      (e = product_not_found \/ e = already_reviewed \/ e = unprocessable
       \/ (e = internal_error
           /\ (product_id_accepted db (ReviewCreate.product_id review) = false
               \/ next_id_taken db = true)))
      /\ db' = db)
  /\ (forall rid u db e db',
      delete_review rid u db = (inl e, db') ->
      (e = review_not_found \/ e = not_your_review
       \/ (e = internal_error /\ review_id_accepted db rid = false))
      /\ db' = db).
Proof.
  split.
  - intros review u now db e db'. rewrite create_review_run.
    destruct (product_id_accepted _ _) eqn:Hacc; cbn [negb];
      [|intros H; injection H as <- <-; auto 7].
    destruct (product_is_active _ _); cbn [negb];
      [|intros H; injection H as <- <-; auto].
    destruct (author_has_active_review _ _);
      [intros H; injection H as <- <-; auto|].
    destruct (grade_out_of_range _);
      [intros H; injection H as <- <-; auto|].
    destruct (next_id_taken db) eqn:Hfree;
      [intros H; injection H as <- <-; auto 7 | discriminate].
  - intros rid u db e db'. rewrite delete_review_run.
    destruct (review_id_accepted _ _) eqn:Hacc; cbn [negb];
      [|intros H; injection H as <- <-; auto].
    destruct (review_is_active _ _) eqn:Hr; cbn [negb];
      [|intros H; injection H as <- <-; auto].
    destruct (may_delete _ _ _); cbn [negb];
      [|intros H; injection H as <- <-; auto].
    destruct (review_is_active_found _ _ Hr) as [r ->]. discriminate.
Qed.

(** A create with grade 6 and a delete of somebody else's review. *)
Lemma failed_request_writes_nothing_witness :
  (create_review (Sample.request 2 6) (Sample.buyer 9) 102 Sample.shop1
   = (inl unprocessable, Sample.shop1)
   /\ Sample.shop1 = Sample.shop1)
  /\ (delete_review 2 (Sample.buyer 7) Sample.shop2
      = (inl not_your_review, Sample.shop2)
      /\ Sample.shop2 = Sample.shop2).
Proof.
  split; (split; [reflexivity|]).
  - apply (proj1 failed_request_writes_nothing
             (Sample.request 2 6) (Sample.buyer 9) 102 Sample.shop1
             unprocessable Sample.shop1).
    reflexivity.
  - apply (proj2 failed_request_writes_nothing 2 (Sample.buyer 7) Sample.shop2
             not_your_review Sample.shop2).
    reflexivity.
Defined.

(** ** Delete *)




Lemma active_row_review_is_active (rows : list ReviewModel.t)
  (r : ReviewModel.t) :
  In r rows -> ReviewModel.is_active r = true ->
  review_is_active rows (ReviewModel.id r) = true.
Proof.
  intros Hin Ha. apply existsb_exists. exists r. split; [exact Hin|].
  now rewrite Z.eqb_refl, Ha.
Qed.

Lemma deactivated_not_active (rid : Z) (rows : list ReviewModel.t) :
  review_is_active (deactivate rid rows) rid = false.
Proof.
  destruct (review_is_active _ _) eqn:E; [|reflexivity].
  apply existsb_exists in E as (x & Hin & Hx).
  apply update_rows_in in Hin as (a & _ & ->).
  destruct (Z.eqb_spec (ReviewModel.id a) rid) as [Ea|Ea].
  - cbn [set_is_active ReviewModel.is_active] in Hx.
    now rewrite andb_false_r in Hx.
  - apply andb_true_iff in Hx as [Hx _]. apply Z.eqb_eq in Hx. contradiction.
Qed.

(** C5: for a delete of an active review, a caller who is neither its
    author nor an admin is answered 403, the database is what it was and
    the review is still an active row of it; an admin is answered the
    confirmation whoever the author is, and the review is no longer
    active. *)
Theorem delete_owner_or_admin_only :
  (forall rid u db r,
      primary_key_ok db = true ->
      In r (reviews db) -> ReviewModel.id r = rid ->
      ReviewModel.is_active r = true ->
      UserModel.id u <> ReviewModel.user_id r -> is_admin u = false ->
      delete_review rid u db = (inl not_your_review, db)
      /\ status_code not_your_review = 403
      /\ In r (reviews (snd (delete_review rid u db))))
  /\ (forall rid u db r,
      In r (reviews db) -> ReviewModel.id r = rid ->
      ReviewModel.is_active r = true ->
      is_admin u = true ->
      exists db',
        delete_review rid u db = (inr review_deleted, db')
        /\ review_is_active (reviews db') rid = false).
Proof.
  split.
  - intros rid u db r Hpk Hin Hid Ha Hown Hadm.
    apply andb_true_iff in Hpk as [Hd _].
    assert (may_delete (reviews db) rid u = false) as Hm.
    { destruct (may_delete _ _ _) eqn:E; [|reflexivity]. exfalso.
      apply existsb_exists in E as (x & Hx & Hsel).
      rewrite Hadm, orb_false_r in Hsel.
      apply andb_true_iff in Hsel as [Hk Hu].
      apply andb_true_iff in Hk as [Hk _].
      apply Z.eqb_eq in Hk, Hu.
      assert (x = r) as -> by (apply (same_key_same_row (reviews db)); congruence).
      congruence. }
    rewrite delete_review_run, Hm, <- Hid.
    rewrite (stored_review_accepted _ _ Hin).
    rewrite (active_row_review_is_active _ _ Hin Ha). cbn [negb snd]. auto.
  - intros rid u db r Hin Hid Ha Hadm. rewrite delete_review_run, <- Hid.
    rewrite (stored_review_accepted _ _ Hin).
    rewrite (active_row_review_is_active _ _ Hin Ha).
    assert (may_delete (reviews db) (ReviewModel.id r) u = true) as ->.
    { apply existsb_exists. exists r. split; [exact Hin|].
      now rewrite Z.eqb_refl, Ha, Hadm, orb_true_r. }
    cbn [negb].
    destruct (review_is_active_found _ _ (active_row_review_is_active _ _ Hin Ha))
      as [r' ->].
    eexists. split; [reflexivity|]. apply deactivated_not_active.
Qed.

(** Review 2 of [shop2] belongs to buyer 8: buyer 7 may not delete it,
    admin 9 may. *)
Lemma delete_owner_or_admin_only_witness :
  (delete_review 2 (Sample.buyer 7) Sample.shop2
   = (inl not_your_review, Sample.shop2)
   /\ status_code not_your_review = 403
   /\ In (new_review (Sample.request 1 5) 8 101 2)
         (reviews (snd (delete_review 2 (Sample.buyer 7) Sample.shop2))))
  /\ (exists db',
        delete_review 2 (Sample.admin 9) Sample.shop2 = (inr review_deleted, db')
        /\ review_is_active (reviews db') 2 = false).
Proof.
  split.
  - apply (proj1 delete_owner_or_admin_only 2 (Sample.buyer 7) Sample.shop2
             (new_review (Sample.request 1 5) 8 101 2)).
    + reflexivity.
    + right; left; reflexivity.
    + reflexivity.
    + reflexivity.
    + cbn. lia.
    + reflexivity.
  - apply (proj2 delete_owner_or_admin_only 2 (Sample.admin 9) Sample.shop2
             (new_review (Sample.request 1 5) 8 101 2)).
    + right; left; reflexivity.
    + reflexivity.
    + reflexivity.
    + reflexivity.
Defined.

(** C7: a delete that succeeds answers [{"message": "Review deleted"}];
    the reviews table keeps its rows, position by position; the row with
    the deleted id, which was active, keeps every field but [is_active],
    now false; every other row is the row it was. *)
Theorem delete_is_soft (rid : Z) (u : UserModel.t) (db db' : Db)
  (m : list (string * string)) :
  delete_review rid u db = (inr m, db') ->
  m = [("message", "Review deleted")]
  /\ review_is_active (reviews db) rid = true
  /\ List.length (reviews db') = List.length (reviews db)
  /\ forall i r, nth_error (reviews db) i = Some r ->
       exists r',
         nth_error (reviews db') i = Some r'
         /\ ReviewModel.id r' = ReviewModel.id r
         /\ ReviewModel.user_id r' = ReviewModel.user_id r
         /\ ReviewModel.product_id r' = ReviewModel.product_id r
         /\ ReviewModel.grade r' = ReviewModel.grade r
         /\ ReviewModel.comment r' = ReviewModel.comment r
         /\ ReviewModel.comment_date r' = ReviewModel.comment_date r
         /\ (ReviewModel.id r = rid -> ReviewModel.is_active r' = false)
         /\ (ReviewModel.id r <> rid -> r' = r).
Proof.
  intros H. apply delete_review_success_inv in H as (Hr & _ & -> & r0 & _ & ->).
  split; [reflexivity|]. split; [exact Hr|].
  cbn [deleted_db reviews]. split; [apply update_rows_length|].
  intros i r Hi. unfold deactivate, update_rows.
  rewrite nth_error_map, Hi. cbn [option_map].
  eexists. split; [reflexivity|].
  destruct (Z.eqb_spec (ReviewModel.id r) rid) as [E|E];
    cbn [set_is_active ReviewModel.id ReviewModel.user_id ReviewModel.product_id
         ReviewModel.grade ReviewModel.comment ReviewModel.comment_date
         ReviewModel.is_active];
    repeat split; auto; contradiction.
Qed.

Lemma delete_is_soft_witness :
  review_deleted = [("message", "Review deleted")]
  /\ review_is_active (reviews Sample.shop2) 1 = true
  /\ List.length (reviews Sample.shop3) = List.length (reviews Sample.shop2)
  /\ forall i r, nth_error (reviews Sample.shop2) i = Some r ->
       exists r',
         nth_error (reviews Sample.shop3) i = Some r'
         /\ ReviewModel.id r' = ReviewModel.id r
         /\ ReviewModel.user_id r' = ReviewModel.user_id r
         /\ ReviewModel.product_id r' = ReviewModel.product_id r
         /\ ReviewModel.grade r' = ReviewModel.grade r
         /\ ReviewModel.comment r' = ReviewModel.comment r
         /\ ReviewModel.comment_date r' = ReviewModel.comment_date r
         /\ (ReviewModel.id r = 1 -> ReviewModel.is_active r' = false)
         /\ (ReviewModel.id r <> 1 -> r' = r).
Proof.
  apply (delete_is_soft 1 (Sample.buyer 7) Sample.shop2 Sample.shop3).
  reflexivity.
Defined.

(** ** The stored rating *)

Lemma write_rating_as_specified (rows : list ReviewModel.t) (pid : Z)
  (ps : list ProductModel.t) (p : ProductModel.t) :
  In p (write_rating rows pid ps) -> ProductModel.id p = pid ->
  rating_as_specified rows pid (ProductModel.rating p).
Proof.
  intros Hin Hid. apply update_rows_in in Hin as (a & _ & ->).
  destruct (Z.eqb_spec (ProductModel.id a) pid) as [E|E].
  - cbn [set_rating ProductModel.rating]. apply rating_value_as_specified.
  - contradiction.
Qed.

Lemma write_rating_keeps_product (rows : list ReviewModel.t) (pid : Z)
  (ps : list ProductModel.t) :
  product_is_active ps pid = true ->
  exists p, In p (write_rating rows pid ps) /\ ProductModel.id p = pid.
Proof.
  intros H. apply existsb_exists in H as (a & Hin & Ha).
  apply andb_true_iff in Ha as [Hid _].
  exists (set_rating (rating_value rows pid) a). split.
  - apply update_rows_in. exists a. split; [exact Hin|]. now rewrite Hid.
  - apply Z.eqb_eq in Hid. exact Hid.
Qed.

Lemma four_and_five_round_to_four : rounds_half_even (mean [4; 5]) 4.
Proof.
  split.
  - vm_compute. discriminate.
  - intros _. reflexivity.
Qed.

(** C2: after a create that succeeds, the product of the request is
    still in the products table and its stored rating is the mean of the
    grades of the active reviews of that product, as they are in the
    database after the create, rounded to the nearest integer with a tie
    going to the even one.  After a delete that succeeds, every product
    row with the id of the deleted review's product has the rating
    computed the same way from the database after the delete, null when
    no active review of the product is left.  With active grades 4 and
    5, that rating is 4. *)
Theorem stored_rating_is_rounded_mean :
  (forall review u now db row db',
      create_review review u now db = (inr row, db') ->
      (exists p, In p (products db')
                 /\ ProductModel.id p = ReviewCreate.product_id review)
      /\ forall p, In p (products db') ->
           ProductModel.id p = ReviewCreate.product_id review ->
           rating_as_specified (reviews db') (ReviewCreate.product_id review)
             (ProductModel.rating p))
  /\ (forall rid u db r m db',
      primary_key_ok db = true ->
      In r (reviews db) -> ReviewModel.id r = rid ->
      delete_review rid u db = (inr m, db') ->
      forall p, In p (products db') ->
        ProductModel.id p = ReviewModel.product_id r ->
        rating_as_specified (reviews db') (ReviewModel.product_id r)
          (ProductModel.rating p))
  /\ (forall rows pid v,
      rating_as_specified rows pid v ->
      (active_grades rows pid = [] -> v = None)
      /\ (active_grades rows pid = [4; 5] -> v = Some 4)).
Proof.
  split; [|split].
  - intros review u now db row db' H.
    apply create_review_success_inv in H as (Hp & _ & _ & -> & _).
    cbn [created_db products reviews]. split.
    + now apply write_rating_keeps_product.
    + intros p. apply write_rating_as_specified.
  - intros rid u db r m db' Hpk Hin Hid H.
    apply delete_review_success_inv in H as (_ & _ & _ & r0 & F & ->).
    apply andb_true_iff in Hpk as [Hd _].
    rewrite <- Hid, (find_by_key _ _ Hd Hin) in F. injection F as <-.
    cbn [deleted_db products reviews].
    intros p. apply write_rating_as_specified.
  - intros rows pid v H. unfold rating_as_specified in H. split; intros E.
    + now rewrite E in H.
    + rewrite E in H. destruct H as (z & -> & Hz). f_equal.
      exact (rounds_half_even_unique _ _ _ Hz four_and_five_round_to_four).
Qed.

(** After grades 4 and 5 for product 1 its stored rating is 4; after
    the review with grade 4 is deleted, the rating follows the one
    active grade that is left; after that one is deleted too, the rating
    is null. *)
Lemma stored_rating_is_rounded_mean_witness :
  active_grades (reviews Sample.shop2) 1 = [4; 5]
  /\ (forall p, In p (products Sample.shop2) -> ProductModel.id p = 1 ->
        ProductModel.rating p = Some 4)
  /\ (forall p, In p (products Sample.shop3) -> ProductModel.id p = 1 ->
        rating_as_specified (reviews Sample.shop3) 1 (ProductModel.rating p))
  /\ (forall p, In p (products Sample.shop4) -> ProductModel.id p = 1 ->
        ProductModel.rating p = None).
Proof.
  destruct stored_rating_is_rounded_mean as (Hcreate & Hdelete & Hvalue).
  split; [reflexivity|]. split; [|split].
  - intros p Hin Hid.
    apply (Hvalue (reviews Sample.shop2) 1); [|reflexivity].
    apply (proj2 (Hcreate (Sample.request 1 5) (Sample.buyer 8) 101 Sample.shop1
                    (new_review (Sample.request 1 5) 8 101 2) Sample.shop2
                    eq_refl) p Hin Hid).
  - intros p Hin Hid.
    apply (Hdelete 1 (Sample.buyer 7) Sample.shop2
             (new_review (Sample.request 1 4) 7 100 1) review_deleted
             Sample.shop3 eq_refl (or_introl eq_refl) eq_refl eq_refl p Hin Hid).
  - intros p Hin Hid.
    apply (Hvalue (reviews Sample.shop4) 1); [|reflexivity].
    apply (Hdelete 2 (Sample.buyer 8) Sample.shop3
             (new_review (Sample.request 1 5) 8 101 2) review_deleted
             Sample.shop4 eq_refl (or_intror (or_introl eq_refl)) eq_refl
             eq_refl p Hin Hid).
Defined.

(** ** Outcomes of the two writing handlers, case by case *)

Ltac split_outcomes :=
  repeat split; intros;
  repeat match goal with
         | H : _ /\ _ |- _ => destruct H
         | H : exists _, _ |- _ => destruct H
         end;
  try discriminate; try congruence; try lia; eauto.



(** X2: a delete has four outcomes and the database decides which: 500
    exactly when the driver does not accept the requested id (it is
    outside the integer type of the database); 404 exactly when it is
    accepted and no active review has it; 403 exactly when an active
    review has it but none of them is the caller's and the caller is no
    admin; the confirmation exactly when an active review with the id
    belongs to the caller or the caller is an admin. *)
Theorem delete_review_outcome (rid : Z) (u : UserModel.t) (db : Db) :
  let answer := fst (delete_review rid u db) in
  (answer = inl internal_error <-> review_id_accepted db rid = false)
  /\ (review_id_accepted db rid = false -> in_integer_range db rid = false)
  /\ (answer = inl review_not_found <->
      review_id_accepted db rid = true
      /\ review_is_active (reviews db) rid = false)
  /\ (answer = inl not_your_review <->
      review_is_active (reviews db) rid = true
      /\ may_delete (reviews db) rid u = false)
  /\ (answer = inr review_deleted <-> may_delete (reviews db) rid u = true).
Proof.
  cbv zeta. rewrite delete_review_run.
  assert (review_id_accepted db rid = false ->
          in_integer_range db rid = false) as Hrange.
  { unfold review_id_accepted, accepts. intros H.
    now apply orb_false_iff in H as [H _]. }
  destruct (review_is_active _ _) eqn:Hr.
  - rewrite (active_review_accepted _ _ Hr) in *. cbn [negb fst].
    destruct (review_is_active_found _ _ Hr) as [r ->].
    destruct (may_delete _ _ _); cbn [negb fst]; split_outcomes.
  - assert (may_delete (reviews db) rid u = false) as ->.
    { destruct (may_delete _ _ _) eqn:E; [|reflexivity].
      apply existsb_exists in E as (x & Hx & Hsel).
      apply andb_true_iff in Hsel as [Hsel _].
      assert (review_is_active (reviews db) rid = true) as X
        by (apply existsb_exists; now exists x).
      congruence. }
    destruct (review_id_accepted _ _); cbn [negb fst]; split_outcomes.
Qed.

(** Review 2 of [shop2] is buyer 8's: buyer 8 may delete it, buyer 7
    may not; id 9223372036854775808 is answered 500. *)
Lemma delete_review_outcome_witness :
  fst (delete_review 2 (Sample.buyer 8) Sample.shop2) = inr review_deleted
  /\ fst (delete_review 2 (Sample.buyer 7) Sample.shop2) = inl not_your_review
  /\ fst (delete_review 9223372036854775808 (Sample.buyer 7) Sample.shop2)
     = inl internal_error.
Proof.
  split; [|split].
  - apply (proj2 (proj2 (proj2 (proj2
             (delete_review_outcome 2 (Sample.buyer 8) Sample.shop2))))).
    reflexivity.
  - apply (proj2 (proj1 (proj2 (proj2 (proj2
             (delete_review_outcome 2 (Sample.buyer 7) Sample.shop2)))))).
    split; reflexivity.
  - apply (proj2 (proj1
             (delete_review_outcome 9223372036854775808 (Sample.buyer 7)
                Sample.shop2))).
    reflexivity.
Defined.

(** X3: the author of an active review deletes it, admin or not: the
    answer is the confirmation and no active review has the id any
    more. *)
Theorem delete_own_review (u : UserModel.t) (db : Db) (r : ReviewModel.t) :
  In r (reviews db) -> ReviewModel.is_active r = true ->
  ReviewModel.user_id r = UserModel.id u ->
  exists db',
    delete_review (ReviewModel.id r) u db = (inr review_deleted, db')
    /\ review_is_active (reviews db') (ReviewModel.id r) = false.
Proof.
  intros Hin Ha Hu. rewrite delete_review_run.
  rewrite (stored_review_accepted _ _ Hin).
  rewrite (active_row_review_is_active _ _ Hin Ha).
  assert (may_delete (reviews db) (ReviewModel.id r) u = true) as ->.
  { apply existsb_exists. exists r. split; [exact Hin|].
    now rewrite Z.eqb_refl, Ha, Hu, Z.eqb_refl. }
  cbn [negb].
  destruct (review_is_active_found _ _ (active_row_review_is_active _ _ Hin Ha))
    as [r' ->].
  eexists. split; [reflexivity|]. apply deactivated_not_active.
Qed.

Lemma delete_own_review_witness :
  exists db',
    delete_review 2 (Sample.buyer 8) Sample.shop2 = (inr review_deleted, db')
    /\ review_is_active (reviews db') 2 = false.
Proof.
  apply (delete_own_review (Sample.buyer 8) Sample.shop2
           (new_review (Sample.request 1 5) 8 101 2)).
  - right; left; reflexivity.
  - reflexivity.
  - reflexivity.
Defined.

Lemma review_id_accepted_deleted_db (rid pid x : Z) (db : Db) :
  review_id_accepted (deleted_db rid pid db) x = review_id_accepted db x.
Proof.
  unfold review_id_accepted, accepts, in_integer_range.
  cbn [deleted_db reviews integer_max]. now rewrite deactivate_ids.
Qed.

(** X4: a review is deleted once.  After a delete that succeeded, a
    delete of the same id, by whichever caller, is answered 404 and
    changes nothing. *)
Theorem delete_twice_not_found (rid : Z) (u u' : UserModel.t) (db db' : Db)
  (m : list (string * string)) :
  delete_review rid u db = (inr m, db') ->
  delete_review rid u' db' = (inl review_not_found, db').
Proof.
  intros H. apply delete_review_success_inv in H as (Hr & _ & _ & r & _ & ->).
  rewrite delete_review_run, review_id_accepted_deleted_db.
  rewrite (active_review_accepted _ _ Hr). cbn [deleted_db reviews negb].
  now rewrite deactivated_not_active.
Qed.

Lemma delete_twice_not_found_witness :
  delete_review 1 (Sample.admin 9) Sample.shop3
  = (inl review_not_found, Sample.shop3).
Proof.
  apply (delete_twice_not_found 1 (Sample.buyer 7) (Sample.admin 9)
           Sample.shop2 Sample.shop3 review_deleted).
  reflexivity.
Defined.

(** ** What the writing handlers leave alone *)

Lemma set_is_active_inactive (r : ReviewModel.t) :
  ReviewModel.is_active r = false -> set_is_active false r = r.
Proof. destruct r as [i us p c d g a]. cbn. now intros ->. Qed.

Lemma write_rating_nth (rows : list ReviewModel.t) (pid : Z)
  (ps : list ProductModel.t) (i : nat) (p : ProductModel.t) :
  nth_error ps i = Some p ->
  exists p',
    nth_error (write_rating rows pid ps) i = Some p'
    /\ ProductModel.id p' = ProductModel.id p
    /\ ProductModel.is_active p' = ProductModel.is_active p
    /\ (ProductModel.id p <> pid -> p' = p)
    /\ (ProductModel.id p = pid ->
        ProductModel.rating p' = rating_value rows pid).
Proof.
  intros Hi. unfold write_rating, update_rows.
  rewrite nth_error_map, Hi. cbn [option_map]. eexists. split; [reflexivity|].
  destruct (Z.eqb_spec (ProductModel.id p) pid) as [E|E];
    cbn [set_rating ProductModel.id ProductModel.is_active ProductModel.rating];
    repeat split; auto; contradiction.
Qed.

(** X5: no handler run removes, moves or rewrites a review row, except
    that a delete switches [is_active] off.  After a create, whatever
    its answer, every row is where and what it was, and the table is
    longer by at most the one row of the request; after a delete,
    whatever its answer, the table has the same length, and every row
    that was inactive is where and what it was: a withdrawn review is
    never brought back. *)
Theorem review_rows_persist :
  (forall review u now db i r,
      nth_error (reviews db) i = Some r ->
      nth_error (reviews (snd (create_review review u now db))) i = Some r)
  /\ (forall review u now db,
      reviews (snd (create_review review u now db)) = reviews db
      \/ reviews (snd (create_review review u now db))
         = (reviews db
              ++ [new_review review (UserModel.id u) now (reviews_id_seq db)])%list)
  /\ (forall rid u db,
      List.length (reviews (snd (delete_review rid u db)))
      = List.length (reviews db))
  /\ (forall rid u db i r,
      nth_error (reviews db) i = Some r ->
      ReviewModel.is_active r = false ->
      nth_error (reviews (snd (delete_review rid u db))) i = Some r).
Proof.
  assert (forall review u now db,
      reviews (snd (create_review review u now db)) = reviews db
      \/ reviews (snd (create_review review u now db))
         = (reviews db
              ++ [new_review review (UserModel.id u) now (reviews_id_seq db)])%list)
    as Hcreate.
  { intros review u now db. rewrite create_review_run.
    destruct (negb _); [now left|]. destruct (negb _); [now left|].
    destruct (author_has_active_review _ _); [now left|].
    destruct (grade_out_of_range _); [now left|].
    destruct (next_id_taken db); [now left|]. right; reflexivity. }
  split; [|split; [exact Hcreate|split]].
  - intros review u now db i r Hi.
    destruct (Hcreate review u now db) as [-> | ->]; [exact Hi|].
    rewrite nth_error_app1; [exact Hi|].
    apply nth_error_Some. congruence.
  - intros rid u db. rewrite delete_review_run.
    destruct (negb _); [reflexivity|]. destruct (negb _); [reflexivity|].
    destruct (negb _); [reflexivity|].
    destruct (find _ _); [|reflexivity].
    cbn [snd deleted_db reviews]. apply update_rows_length.
  - intros rid u db i r Hi Ha. rewrite delete_review_run.
    destruct (negb _); [exact Hi|]. destruct (negb _); [exact Hi|].
    destruct (negb _); [exact Hi|].
    destruct (find _ _); [|exact Hi].
    cbn [snd deleted_db reviews]. unfold deactivate, update_rows.
    rewrite nth_error_map, Hi. cbn [option_map].
    destruct (ReviewModel.id r =? rid); [|reflexivity].
    now rewrite set_is_active_inactive.
Qed.

(** Review 1 is inactive in [shop3]: it stays so through a delete of
    review 2 and through a create by its author. *)
Lemma review_rows_persist_witness :
  nth_error (reviews (snd (delete_review 2 (Sample.buyer 8) Sample.shop3))) 0
  = Some (set_is_active false (new_review (Sample.request 1 4) 7 100 1))
  /\ nth_error
       (reviews (snd (create_review (Sample.request 2 3) (Sample.buyer 7) 103
                        Sample.shop3))) 0
     = Some (set_is_active false (new_review (Sample.request 1 4) 7 100 1)).
Proof.
  destruct review_rows_persist as (Hcreate & _ & _ & Hdelete). split.
  - apply (Hdelete 2 (Sample.buyer 8) Sample.shop3 0%nat); reflexivity.
  - apply (Hcreate (Sample.request 2 3) (Sample.buyer 7) 103 Sample.shop3 0%nat);
      reflexivity.
Defined.

(** X6: the only thing a handler run writes in the products table is a
    [rating].  After a create or a delete, whatever its answer, the
    table has the same rows in the same places with the same [id] and
    [is_active]; after a create, a product with another id than the
    requested one is the row it was. *)
Theorem product_rows_keep_identity :
  (forall review u now db i p,
      nth_error (products db) i = Some p ->
      exists p',
        nth_error (products (snd (create_review review u now db))) i = Some p'
        /\ ProductModel.id p' = ProductModel.id p
        /\ ProductModel.is_active p' = ProductModel.is_active p
        /\ (ProductModel.id p <> ReviewCreate.product_id review -> p' = p))
  /\ (forall rid u db i p,
      nth_error (products db) i = Some p ->
      exists p',
        nth_error (products (snd (delete_review rid u db))) i = Some p'
        /\ ProductModel.id p' = ProductModel.id p
        /\ ProductModel.is_active p' = ProductModel.is_active p)
  /\ (forall review u now db,
      List.length (products (snd (create_review review u now db)))
      = List.length (products db))
  /\ (forall rid u db,
      List.length (products (snd (delete_review rid u db)))
      = List.length (products db)).
Proof.
  split; [|split; [|split]].
  - intros review u now db i p Hi. rewrite create_review_run.
    destruct (negb _); [now exists p|]. destruct (negb _); [now exists p|].
    destruct (author_has_active_review _ _); [now exists p|].
    destruct (grade_out_of_range _); [now exists p|].
    destruct (next_id_taken db); [now exists p|].
    cbn [snd created_db products].
    edestruct write_rating_nth as (p' & Hp & Hid & Hact & Hother & _);
      [exact Hi|]. exists p'. eauto.
  - intros rid u db i p Hi. rewrite delete_review_run.
    destruct (negb _); [now exists p|]. destruct (negb _); [now exists p|].
    destruct (negb _); [now exists p|].
    destruct (find _ _); [|now exists p]. cbn [snd deleted_db products].
    edestruct write_rating_nth as (p' & Hp & Hid & Hact & _); [exact Hi|].
    exists p'. eauto.
  - intros review u now db. rewrite create_review_run.
    destruct (negb _); [reflexivity|]. destruct (negb _); [reflexivity|].
    destruct (author_has_active_review _ _); [reflexivity|].
    destruct (grade_out_of_range _); [reflexivity|].
    destruct (next_id_taken db); [reflexivity|].
    cbn [snd created_db products]. apply update_rows_length.
  - intros rid u db. rewrite delete_review_run.
    destruct (negb _); [reflexivity|]. destruct (negb _); [reflexivity|].
    destruct (negb _); [reflexivity|].
    destruct (find _ _); [|reflexivity]. cbn [snd deleted_db products].
    apply update_rows_length.
Qed.

(** Product 2 of [shop1] through a create for product 1 and a delete. *)
Lemma product_rows_keep_identity_witness :
  (exists p',
     nth_error (products Sample.shop2) 1 = Some p'
     /\ ProductModel.id p' = 2 /\ ProductModel.is_active p' = true
     /\ (2 <> 1 -> p' = Sample.product 2 true))
  /\ (exists p',
        nth_error (products Sample.shop3) 1 = Some p'
        /\ ProductModel.id p' = 2 /\ ProductModel.is_active p' = true).
Proof.
  destruct product_rows_keep_identity as (Hcreate & Hdelete & _). split.
  - apply (Hcreate (Sample.request 1 5) (Sample.buyer 8) 101 Sample.shop1 1%nat
             (Sample.product 2 true)).
    reflexivity.
  - apply (Hdelete 1 (Sample.buyer 7) Sample.shop2 1%nat (Sample.product 2 true)).
    reflexivity.
Defined.

(** ** Listing after a write *)

Lemma active_after_deactivate (rid : Z) (rows : list ReviewModel.t) :
  filter (fun r => ReviewModel.is_active r) (deactivate rid rows)
  = filter (fun r => negb (ReviewModel.id r =? rid))
      (filter (fun r => ReviewModel.is_active r) rows).
Proof.
  induction rows as [|a rows IH]; [reflexivity|].
  cbn [deactivate update_rows map filter].
  fold (update_rows (fun r => ReviewModel.id r =? rid) (set_is_active false) rows).
  fold (deactivate rid rows).
  destruct (Z.eqb_spec (ReviewModel.id a) rid) as [E|E].
  - cbn [set_is_active ReviewModel.is_active].
    destruct (ReviewModel.is_active a); cbn [filter].
    + apply Z.eqb_eq in E. rewrite E. cbn [negb]. exact IH.
    + exact IH.
  - destruct (ReviewModel.is_active a); cbn [filter].
    + apply Z.eqb_neq in E. rewrite E. cbn [negb]. now rewrite IH.
    + exact IH.
Qed.

(** X7: the listing follows the writes, whatever the order in which
    the database gives the rows.  After a create that succeeded the
    listing holds the reviews listed before and the answered review, and
    no other; after a delete that succeeded it holds the reviews listed
    before except those with the deleted id, and no other. *)
Theorem listing_follows_writes :
  (forall review u now db row db',
      create_review review u now db = (inr row, db') ->
      exists before after,
        fst (get_all_rewviews db) = inr before
        /\ fst (get_all_rewviews db') = inr after
        /\ Permutation after (row :: before))
  /\ (forall rid u db m db',
      delete_review rid u db = (inr m, db') ->
      exists before after,
        fst (get_all_rewviews db) = inr before
        /\ fst (get_all_rewviews db') = inr after
        /\ Permutation after
             (filter (fun r => negb (ReviewModel.id r =? rid)) before)).
Proof.
  split.
  - intros review u now db row db' H.
    pose proof (create_review_success_row _ _ _ _ _ _ H) as [-> _].
    apply create_review_success_inv in H as (_ & _ & _ & -> & _).
    eexists. eexists. split; [reflexivity|]. split; [reflexivity|].
    cbn [created_db reviews]. rewrite filter_app.
    cbn [filter new_review ReviewModel.is_active].
    apply Permutation_sym, Permutation_cons_append.
  - intros rid u db m db' H.
    apply delete_review_success_inv in H as (_ & _ & _ & r & _ & ->).
    eexists. eexists. split; [reflexivity|]. split; [reflexivity|].
    cbn [deleted_db reviews]. now rewrite active_after_deactivate.
Qed.

Lemma listing_follows_writes_witness :
  (exists before after,
     fst (get_all_rewviews Sample.shop1) = inr before
     /\ fst (get_all_rewviews Sample.shop2) = inr after
     /\ Permutation after (new_review (Sample.request 1 5) 8 101 2 :: before))
  /\ (exists before after,
        fst (get_all_rewviews Sample.shop2) = inr before
        /\ fst (get_all_rewviews Sample.shop3) = inr after
        /\ Permutation after
             (filter (fun r => negb (ReviewModel.id r =? 1)) before)).
Proof.
  destruct listing_follows_writes as (Hcreate & Hdelete). split.
  - apply (Hcreate (Sample.request 1 5) (Sample.buyer 8) 101 Sample.shop1
             (new_review (Sample.request 1 5) 8 101 2) Sample.shop2).
    reflexivity.
  - apply (Hdelete 1 (Sample.buyer 7) Sample.shop2 review_deleted Sample.shop3).
    reflexivity.
Defined.

(** ** One active review per author *)

Section DistinctImages.
Context {A : Type}.
Variable key : A -> Z.

Lemma distinct_map_filter (g : A -> bool) (l : list A) :
  distinct (map key l) = true -> distinct (map key (filter g l)) = true.
Proof.
  rewrite !distinct_spec. induction l as [|a l IH]; cbn [map filter]; [auto|].
  intros H. inversion H as [|x xs Hx Hd]; subst.
  destruct (g a); cbn [map]; [|auto]. constructor; [|auto].
  rewrite in_map_iff in *. intros (b & E & Hb). apply Hx. exists b.
  split; [exact E|]. apply filter_In in Hb. tauto.
Qed.

Lemma distinct_map_count (l : list A) (k : Z) :
  distinct (map key l) = true ->
  (List.length (filter (fun a => (key a =? k)%Z) l) <= 1)%nat.
Proof.
  induction l as [|a l IH]; cbn [map distinct filter]; [auto|].
  rewrite andb_true_iff, negb_true_iff. intros [Ha Hd].
  destruct (Z.eqb_spec (key a) k) as [E|E]; [|auto].
  replace (filter (fun a0 => key a0 =? k) l) with (@nil A); [auto|].
  symmetry. destruct (filter _ l) as [|b t] eqn:F; [reflexivity|].
  assert (In b (filter (fun a0 => key a0 =? k) l)) as Hb
    by (rewrite F; now left).
  apply filter_In in Hb as [Hb Hk]. apply Z.eqb_eq in Hk.
  assert (existsb (Z.eqb (key a)) (map key l) = true) as X.
  { apply existsb_exists. exists (key b). split; [now apply in_map|].
    apply Z.eqb_eq. congruence. }
  congruence.
Qed.

End DistinctImages.

Lemma author_without_active_review (rows : list ReviewModel.t) (uid : Z) :
  author_has_active_review rows uid = false ->
  ~ In uid (map ReviewModel.user_id
              (filter (fun r => ReviewModel.is_active r) rows)).
Proof.
  intros H Hin. apply in_map_iff in Hin as (r & Hu & Hr).
  apply filter_In in Hr as [Hr Ha].
  assert (author_has_active_review rows uid = true) as X.
  { apply existsb_exists. exists r. split; [exact Hr|].
    rewrite Hu, Ha. now rewrite Z.eqb_refl. }
  congruence.
Qed.

Lemma created_db_one_active (review : ReviewCreate.t) (uid now : Z) (db : Db) :
  author_has_active_review (reviews db) uid = false ->
  one_active_review_per_author db = true ->
  one_active_review_per_author (created_db review uid now db) = true.
Proof.
  unfold one_active_review_per_author. intros Hno Hinv.
  cbn [created_db reviews]. rewrite filter_app, map_app.
  cbn [filter new_review ReviewModel.is_active map ReviewModel.user_id].
  apply distinct_snoc; [exact Hinv|]. now apply author_without_active_review.
Qed.

Lemma deleted_db_one_active (rid pid : Z) (db : Db) :
  one_active_review_per_author db = true ->
  one_active_review_per_author (deleted_db rid pid db) = true.
Proof.
  unfold one_active_review_per_author. intros Hinv.
  cbn [deleted_db reviews]. rewrite active_after_deactivate.
  now apply distinct_map_filter.
Qed.

(** X8: because the duplicate check of a create looks at the author
    alone, the handlers keep more than one review per author and
    product: if no two active reviews have the same author, this is
    still so after a create and after a delete, whatever they answer;
    and then an author has at most one active review for any product. *)
Theorem one_active_review_per_author_kept (db : Db) :
  one_active_review_per_author db = true ->
  (forall review u now,
      one_active_review_per_author (snd (create_review review u now db)) = true)
  /\ (forall rid u,
      one_active_review_per_author (snd (delete_review rid u db)) = true)
  /\ (forall uid pid,
      (List.length (active_reviews_of (reviews db) uid pid) <= 1)%nat).
Proof.
  intros Hinv. split; [|split].
  - intros review u now. rewrite create_review_run.
    destruct (negb _); [exact Hinv|]. destruct (negb _); [exact Hinv|].
    destruct (author_has_active_review _ _) eqn:Hno; [exact Hinv|].
    destruct (grade_out_of_range _); [exact Hinv|].
    destruct (next_id_taken db); [exact Hinv|].
    now apply created_db_one_active.
  - intros rid u. rewrite delete_review_run.
    destruct (negb _); [exact Hinv|]. destruct (negb _); [exact Hinv|].
    destruct (negb _); [exact Hinv|].
    destruct (find _ _); [now apply deleted_db_one_active | exact Hinv].
  - intros uid pid. unfold one_active_review_per_author in Hinv.
    pose proof (distinct_map_count ReviewModel.user_id _ uid Hinv) as Hc.
    unfold active_reviews_of.
    assert (forall l : list ReviewModel.t,
               (List.length
                  (filter (fun r => ((ReviewModel.user_id r =? uid)%Z
                                     && (ReviewModel.product_id r =? pid)%Z
                                     && ReviewModel.is_active r)%bool) l)
                <= List.length
                     (filter (fun a => (ReviewModel.user_id a =? uid)%Z)
                        (filter (fun r => ReviewModel.is_active r) l)))%nat) as Hle.
    { induction l as [|a l IH]; [apply le_n|]. cbn [filter].
      destruct (ReviewModel.is_active a); cbn [filter];
        destruct (ReviewModel.user_id a =? uid);
        destruct (ReviewModel.product_id a =? pid); cbn [andb List.length]; lia. }
    specialize (Hle (reviews db)). lia.
Qed.

Lemma one_active_review_per_author_kept_witness :
  one_active_review_per_author Sample.shop3 = true
  /\ one_active_review_per_author Sample.shop4 = true
  /\ (List.length (active_reviews_of (reviews Sample.shop2) 8 1) <= 1)%nat.
Proof.
  split.
  - apply (proj1 (proj2 (one_active_review_per_author_kept Sample.shop2 eq_refl))
             1 (Sample.buyer 7)).
  - split.
    + apply (proj1 (proj2 (one_active_review_per_author_kept Sample.shop3 eq_refl))
               2 (Sample.buyer 8)).
    + apply (proj2 (proj2 (one_active_review_per_author_kept Sample.shop2 eq_refl))
               8 1).
Defined.




(** ** Grades and ratings stay within 1 to 5 *)

Lemma py_round_between (n : Z) (d : positive) (a b : Z) :
  a * Zpos d <= n <= b * Zpos d -> a <= py_round (n # d) <= b.
Proof.
  intros Hn. unfold py_round. cbn [Qnum Qden].
  pose proof (Z.div_mod n (Zpos d) ltac:(lia)) as Hdm.
  pose proof (Z.mod_pos_bound n (Zpos d) ltac:(lia)) as Hr.
  set (f := n / Zpos d) in *. set (r := n mod Zpos d) in *.
  destruct (Z.ltb_spec (2 * r) (Zpos d)); [nia|].
  destruct (Z.ltb_spec (Zpos d) (2 * r)); [nia|].
  destruct (Z.even f); nia.
Qed.

Lemma sum_grades_between (rows : list ReviewModel.t) :
  forallb (fun r => negb (grade_out_of_range (ReviewModel.grade r))) rows = true ->
  Z.of_nat (List.length rows) <= sum_grades rows <= 5 * Z.of_nat (List.length rows).
Proof.
  induction rows as [|r rows IH]; [cbn; lia|].
  cbn [forallb]. rewrite andb_true_iff, negb_true_iff. intros [Hr Hrows].
  specialize (IH Hrows). unfold grade_out_of_range in Hr.
  change (sum_grades (r :: rows)) with (ReviewModel.grade r + sum_grades rows).
  cbn [List.length]. lia.
Qed.

Lemma rating_value_in_range (rows : list ReviewModel.t) (pid : Z) :
  forallb (fun r => negb (grade_out_of_range (ReviewModel.grade r))) rows = true ->
  match rating_value rows pid with
  | None => true
  | Some z => (1 <=? z) && (z <=? 5)
  end = true.
Proof.
  intros Hrows. unfold rating_value. set (sel := filter _ rows).
  assert (forallb (fun r => negb (grade_out_of_range (ReviewModel.grade r))) sel
          = true) as Hsel.
  { rewrite forallb_forall in *. intros r Hr. apply Hrows.
    apply filter_In in Hr. tauto. }
  pose proof (sum_grades_between sel Hsel) as Hs.
  destruct sel as [|r sel']; [reflexivity|].
  cbn [avg_grade option_map].
  pose proof (py_round_between (sum_grades (r :: sel'))
                (Pos.of_nat (List.length (r :: sel'))) 1 5) as Hb.
  replace (Zpos (Pos.of_nat (List.length (r :: sel'))))
    with (Z.of_nat (List.length (r :: sel'))) in Hb
    by (cbn [List.length]; lia).
  lia.
Qed.

Lemma write_rating_in_range (rows : list ReviewModel.t) (pid : Z) (db db' : Db) :
  forallb (fun r => negb (grade_out_of_range (ReviewModel.grade r))) rows = true ->
  ratings_in_range db = true ->
  products db' = write_rating rows pid (products db) ->
  ratings_in_range db' = true.
Proof.
  unfold ratings_in_range. intros Hrows Hdb ->.
  rewrite forallb_forall in Hdb |- *. intros p Hp.
  apply update_rows_in in Hp as (a & Ha & ->).
  destruct (ProductModel.id a =? pid); [|now apply Hdb].
  cbn [set_rating ProductModel.rating]. now apply rating_value_in_range.
Qed.

(** X10: grades and ratings stay in range.  If every stored grade is
    from 1 to 5 and every stored rating is null or from 1 to 5, the same
    holds after a create and after a delete, whatever they answer. *)
Theorem grades_and_ratings_stay_in_range (db : Db) :
  grades_in_range db = true -> ratings_in_range db = true ->
  (forall review u now,
      grades_in_range (snd (create_review review u now db)) = true
      /\ ratings_in_range (snd (create_review review u now db)) = true)
  /\ (forall rid u,
      grades_in_range (snd (delete_review rid u db)) = true
      /\ ratings_in_range (snd (delete_review rid u db)) = true).
Proof.
  intros Hg Hr. split.
  - intros review u now. rewrite create_review_run.
    destruct (negb _); [auto|]. destruct (negb _); [auto|].
    destruct (author_has_active_review _ _); [auto|].
    destruct (grade_out_of_range _) eqn:Hgrade; [auto|].
    destruct (next_id_taken db); [auto|].
    assert (grades_in_range (created_db review (UserModel.id u) now db) = true)
      as Hg'.
    { unfold grades_in_range in *. cbn [created_db reviews].
      rewrite forallb_app, Hg. cbn [forallb new_review ReviewModel.grade].
      now rewrite Hgrade. }
    cbn [snd]. split; [exact Hg'|].
    apply (write_rating_in_range
               (reviews (created_db review (UserModel.id u) now db))
               (ReviewCreate.product_id review) db _ Hg' Hr); reflexivity.
  - intros rid u. rewrite delete_review_run.
    destruct (negb _); [auto|]. destruct (negb _); [auto|].
    destruct (negb _); [auto|].
    destruct (find _ _) as [r|]; [|auto]. cbn [snd].
    assert (grades_in_range (deleted_db rid (ReviewModel.product_id r) db) = true)
      as Hg'.
    { unfold grades_in_range in *. cbn [deleted_db reviews].
      rewrite forallb_forall in *. intros x Hx.
      apply update_rows_in in Hx as (a & Ha & ->). specialize (Hg a Ha).
      now destruct (ReviewModel.id a =? rid). }
    split; [exact Hg'|].
    apply (write_rating_in_range
             (reviews (deleted_db rid (ReviewModel.product_id r) db))
             (ReviewModel.product_id r) db _ Hg' Hr). reflexivity.
Qed.

Lemma grades_and_ratings_stay_in_range_witness :
  (grades_in_range Sample.shop2 = true /\ ratings_in_range Sample.shop2 = true)
  /\ (grades_in_range Sample.shop3 = true /\ ratings_in_range Sample.shop3 = true).
Proof.
  split.
  - apply (proj1 (grades_and_ratings_stay_in_range Sample.shop1 eq_refl eq_refl)
             (Sample.request 1 5) (Sample.buyer 8) 101).
  - apply (proj2 (grades_and_ratings_stay_in_range Sample.shop2 eq_refl eq_refl)
             1 (Sample.buyer 7)).
Defined.

(** X11: the first review of a product sets its rating to the grade of
    that review: after a create that succeeded for a product without
    active reviews, every product row with the requested id has the
    grade of the request as its rating. *)
Theorem first_review_sets_rating (review : ReviewCreate.t) (u : UserModel.t)
  (now : Z) (db db' : Db) (row : ReviewModel.t) (p : ProductModel.t) :
  create_review review u now db = (inr row, db') ->
  active_grades (reviews db) (ReviewCreate.product_id review) = [] ->
  In p (products db') -> ProductModel.id p = ReviewCreate.product_id review ->
  ProductModel.rating p = Some (ReviewCreate.grade review).
Proof.
  intros H Hnone Hp Hid.
  apply create_review_success_inv in H as (_ & _ & _ & -> & _).
  cbn [created_db products reviews] in Hp.
  apply update_rows_in in Hp as (a & _ & ->).
  destruct (Z.eqb_spec (ProductModel.id a) (ReviewCreate.product_id review))
    as [E|E]; [|contradiction].
  cbn [set_rating ProductModel.rating]. unfold rating_value.
  rewrite filter_app. unfold active_grades in Hnone.
  apply map_eq_nil in Hnone. rewrite Hnone.
  cbn [filter new_review ReviewModel.product_id ReviewModel.is_active app].
  rewrite Z.eqb_refl. cbn [andb avg_grade option_map]. f_equal.
  unfold py_round, sum_grades. cbn [Qnum Qden fold_right List.length
    Pos.of_nat ReviewModel.grade new_review].
  rewrite Z.add_0_r, Z.div_1_r, Z.mod_1_r. reflexivity.
Qed.

Lemma first_review_sets_rating_witness :
  ProductModel.rating
    {| ProductModel.id := 1; ProductModel.is_active := true;
       ProductModel.rating := Some 4 |} = Some 4.
Proof.
  apply (first_review_sets_rating (Sample.request 1 4) (Sample.buyer 7) 100
           Sample.shop Sample.shop1 (new_review (Sample.request 1 4) 7 100 1)).
  - reflexivity.
  - reflexivity.
  - left; reflexivity.
  - reflexivity.
Defined.

(** ** The answer of a create, and taking a review back *)

Lemma deactivate_other_ids (rid : Z) (rows : list ReviewModel.t) :
  (forall r, In r rows -> ReviewModel.id r <> rid) -> deactivate rid rows = rows.
Proof.
  intros H. unfold deactivate, update_rows. rewrite <- (map_id rows) at 2.
  apply map_ext_in. intros r Hr. specialize (H r Hr).
  apply Z.eqb_neq in H. now rewrite H.
Qed.

Lemma ids_below_sequence (db : Db) (r : ReviewModel.t) :
  primary_key_ok db = true -> In r (reviews db) ->
  ReviewModel.id r <> reviews_id_seq db.
Proof.
  intros Hpk Hr. apply andb_true_iff in Hpk as [_ Hlt].
  rewrite forallb_forall in Hlt. specialize (Hlt r Hr). lia.
Qed.

(** X12: under the key constraint, the review a create answers with is
    the row it stored: it belongs to the caller, carries the product,
    grade and comment of the request and the time of the request, is
    active, sits at the end of the reviews table, and has an id no
    earlier row has; the key constraint holds again afterwards. *)
Theorem created_review_answer (review : ReviewCreate.t) (u : UserModel.t)
  (now : Z) (db db' : Db) (row : ReviewModel.t) :
  primary_key_ok db = true ->
  create_review review u now db = (inr row, db') ->
  ReviewModel.user_id row = UserModel.id u
  /\ ReviewModel.product_id row = ReviewCreate.product_id review
  /\ ReviewModel.grade row = ReviewCreate.grade review
  /\ ReviewModel.comment row = ReviewCreate.comment review
  /\ ReviewModel.comment_date row = now
  /\ ReviewModel.is_active row = true
  /\ reviews db' = (reviews db ++ [row])%list
  /\ (forall r, In r (reviews db) -> ReviewModel.id r <> ReviewModel.id row)
  /\ primary_key_ok db' = true.
Proof.
  intros Hpk H. apply create_review_success_inv in H as (_ & _ & _ & -> & F).
  rewrite (created_row_is_new _ _ _ _ Hpk) in F. injection F as <-.
  repeat split.
  - intros r Hr. cbn [new_review ReviewModel.id]. now apply ids_below_sequence.
  - now apply created_db_primary_key_ok.
Qed.

Lemma created_review_answer_witness :
  let row := new_review (Sample.request 1 5) 8 101 2 in
  ReviewModel.user_id row = 8
  /\ ReviewModel.product_id row = 1
  /\ ReviewModel.grade row = 5
  /\ ReviewModel.comment row = None
  /\ ReviewModel.comment_date row = 101
  /\ ReviewModel.is_active row = true
  /\ reviews Sample.shop2 = (reviews Sample.shop1 ++ [row])%list
  /\ (forall r, In r (reviews Sample.shop1) -> ReviewModel.id r <> ReviewModel.id row)
  /\ primary_key_ok Sample.shop2 = true.
Proof.
  apply (created_review_answer (Sample.request 1 5) (Sample.buyer 8) 101
           Sample.shop1 Sample.shop2 (new_review (Sample.request 1 5) 8 101 2));
    reflexivity.
Defined.

(** X13: a review that was just created can be taken back by its
    author, and that undoes the create for the readers: under the key
    constraint, after a create that succeeded, a delete of the answered
    id by the same caller succeeds, the listing is then what it was
    before the create, and every product row with the requested id has
    the rating that a recomputation on the reviews table from before the
    create gives. *)
Theorem create_then_delete_restores (review : ReviewCreate.t) (u : UserModel.t)
  (now : Z) (db db' : Db) (row : ReviewModel.t) :
  primary_key_ok db = true ->
  create_review review u now db = (inr row, db') ->
  exists db'',
    delete_review (ReviewModel.id row) u db' = (inr review_deleted, db'')
    /\ fst (get_all_rewviews db'') = fst (get_all_rewviews db)
    /\ forall p, In p (products db'') ->
         ProductModel.id p = ReviewCreate.product_id review ->
         ProductModel.rating p
         = rating_value (reviews db) (ReviewCreate.product_id review).
Proof.
  intros Hpk H. apply create_review_success_inv in H as (_ & _ & _ & -> & F).
  pose proof (created_row_is_new review (UserModel.id u) now db Hpk) as Fnew.
  rewrite Fnew in F. injection F as <-.
  set (new := new_review review (UserModel.id u) now (reviews_id_seq db)) in *.
  set (db' := created_db review (UserModel.id u) now db) in *.
  assert (In new (reviews db')) as Hin
    by (cbn [db' created_db reviews]; apply in_or_app; right; now left).
  rewrite delete_review_run.
  rewrite (stored_review_accepted _ _ Hin).
  rewrite (active_row_review_is_active _ _ Hin eq_refl).
  assert (may_delete (reviews db') (ReviewModel.id new) u = true) as ->.
  { apply existsb_exists. exists new. split; [exact Hin|].
    cbn [new new_review ReviewModel.id ReviewModel.is_active ReviewModel.user_id].
    now rewrite !Z.eqb_refl. }
  cbn [negb]. change (ReviewModel.id new) with (reviews_id_seq db).
  rewrite Fnew. eexists. split; [reflexivity|].
  assert (deactivate (reviews_id_seq db) (reviews db')
          = (reviews db ++ [set_is_active false new])%list) as Hrows.
  { cbn [db' created_db reviews]. unfold deactivate at 1, update_rows.
    rewrite map_app. f_equal.
    - apply (deactivate_other_ids (reviews_id_seq db)).
      intros r Hr. now apply ids_below_sequence.
    - cbn [map new new_review ReviewModel.id]. now rewrite Z.eqb_refl. }
  split.
  - unfold get_all_rewviews, bind, scalars_reviews, ret.
    cbn [forallb fst deleted_db reviews]. rewrite Hrows, filter_app. cbn [filter set_is_active ReviewModel.is_active].
    now rewrite app_nil_r.
  - intros p Hp Hid. cbn [deleted_db products reviews] in Hp.
    apply update_rows_in in Hp as (a & _ & ->).
    cbn [new new_review ReviewModel.product_id] in *.
    destruct (Z.eqb_spec (ProductModel.id a) (ReviewCreate.product_id review))
      as [E|E]; [|contradiction].
    cbn [set_rating ProductModel.rating]. unfold rating_value.
    rewrite Hrows, filter_app.
    cbn [filter set_is_active ReviewModel.is_active ReviewModel.product_id].
    rewrite andb_false_r. now rewrite app_nil_r.
Qed.

(** Buyer 8 reviews product 1 in [shop1] and takes the review back. *)
Lemma create_then_delete_restores_witness :
  exists db'',
    delete_review 2 (Sample.buyer 8) Sample.shop2 = (inr review_deleted, db'')
    /\ fst (get_all_rewviews db'') = fst (get_all_rewviews Sample.shop1)
    /\ forall p, In p (products db'') -> ProductModel.id p = 1 ->
         ProductModel.rating p = rating_value (reviews Sample.shop1) 1.
Proof.
  apply (create_then_delete_restores (Sample.request 1 5) (Sample.buyer 8) 101
           Sample.shop1 Sample.shop2 (new_review (Sample.request 1 5) 8 101 2));
    reflexivity.
Defined.
